(** * AI-RAG-chatbot: a shallow embedding of the backend and its properties

    The development follows the two backend modules:
    - [backend/rag_engine.py]  : [RAGEngine] (prompt building, relevance
      filter, [query], [generate_response], [direct_response]);
    - [backend/backend_app.py] : the session store and the HTTP handlers
      ([generate_session_title], [needs_document_search], [get_session],
      [delete_session], [chat_endpoint]).

    Python values are modelled as follows.
    - A [str] is a [string]; every character stands for one code point
      below 256, so [len], slicing and [lower] are the Python ones on
      Latin-1 text.
    - A [dict] keyed by strings is a [gmap string _].
    - A Python [float] is an IEEE-754 binary64 value, [spec_float].
    - A call that may raise returns a [py_result]; [try/except Exception]
      is a match on it.
    - Logging and [print] have no effect on any value and are left out. *)

From Stdlib Require Import ZArith Ascii String List Bool Lia DecimalString.
From Stdlib Require Import SpecFloat Sorted.
From stdpp Require Import base option list strings gmap.

Local Open Scope string_scope.

(* ===================================================================== *)
(** ** Python strings *)
(* ===================================================================== *)

Module PyStr.

(** The newline character used by the prompt templates. *)
Definition nl : string := String (ascii_of_nat 10) EmptyString.

(** [s[:n]] *)
Definition take (n : nat) (s : string) : string := String.substring 0 n s.

(** [k in s] for two strings: is [k] a contiguous part of [s]? *)
Fixpoint contains (k s : string) : bool :=
  String.prefix k s ||
  match s with
  | EmptyString => false
  | String _ s' => contains k s'
  end.

(** [c.lower()] on one code point below 256: the ASCII capitals and the
    Latin-1 capitals U+00C0..U+00DE (without the sign U+00D7) move up by
    32, every other code point is unchanged. *)
Definition lower_char (c : ascii) : ascii :=
  let n := nat_of_ascii c in
  if (((65 <=? n) && (n <=? 90)) ||
      ((192 <=? n) && (n <=? 222) && negb (n =? 215)))%nat
  then ascii_of_nat (n + 32) else c.

(** [s.lower()] *)
Fixpoint lower (s : string) : string :=
  match s with
  | EmptyString => EmptyString
  | String c s' => String (lower_char c) (lower s')
  end.

(** [c.isspace()] on one code point below 256. *)
Definition is_space (c : ascii) : bool :=
  let n := nat_of_ascii c in
  (((9 <=? n) && (n <=? 13)) || ((28 <=? n) && (n <=? 32)) ||
   (n =? 133) || (n =? 160))%nat.

Fixpoint lstrip (s : string) : string :=
  match s with
  | EmptyString => EmptyString
  | String c s' => if is_space c then lstrip s' else s
  end.

Fixpoint rev_onto (s acc : string) : string :=
  match s with
  | EmptyString => acc
  | String c s' => rev_onto s' (String c acc)
  end.

Definition rev (s : string) : string := rev_onto s EmptyString.

(** [s.strip()] *)
Definition strip (s : string) : string := rev (lstrip (rev (lstrip s))).

(** [sep.join(parts)] *)
Fixpoint join (sep : string) (parts : list string) : string :=
  match parts with
  | [] => EmptyString
  | [p] => p
  | p :: rest => p ++ sep ++ join sep rest
  end.

(** [p.rfind('/') + 1], counted from the front of [p]. *)
Fixpoint after_last_slash (p : string) : string :=
  match p with
  | EmptyString => EmptyString
  | String c p' =>
      if contains "/" p' then after_last_slash p'
      else if Ascii.eqb c "/"%char then p' else p
  end.

(** [os.path.basename(p)] (posixpath): the part after the last slash. *)
Definition basename (p : string) : string := after_last_slash p.

End PyStr.

(* ===================================================================== *)
(** ** Exceptions *)
(* ===================================================================== *)

(** An exception caught by [except Exception as e]; [str(e)] is all the
    program ever reads from it. *)
Record py_exn := PyExn { exn_class : string; exn_str : string }.

Inductive py_result (A : Type) :=
| PyOk (a : A)
| PyRaise (e : py_exn).
Arguments PyOk {A} a.
Arguments PyRaise {A} e.

Definition IndexError : py_exn := PyExn "IndexError" "list index out of range".
Definition AttributeError_get : py_exn :=
  PyExn "AttributeError" "'NoneType' object has no attribute 'get'".
Definition KeyError (k : string) : py_exn := PyExn "KeyError" ("'" ++ k ++ "'").

(* ===================================================================== *)
(** ** backend_app.py: title and keyword router *)
(* ===================================================================== *)

(** [generate_session_title] *)
Definition generate_session_title (first_message : string) : string :=
  if (30 <? String.length first_message)%nat
  then PyStr.take 30 first_message ++ "..."
  else first_message.

Definition doc_specific_keywords : list string :=
  [ "manoj"; "chauhan"; "cv"; "resume"; "experience"; "project"; "skill";
    "role"; "company"; "enterprise"; "digital transformation"; "initiatives" ].

(** The [for keyword in ...: if keyword in lower_message: return True]
    loop, falling through to [return False]. *)
Fixpoint any_keyword_in (keywords : list string) (lower_message : string) : bool :=
  match keywords with
  | [] => false
  | keyword :: rest =>
      if PyStr.contains keyword lower_message then true
      else any_keyword_in rest lower_message
  end.

(** [needs_document_search] *)
Definition needs_document_search (message : string) : bool :=
  let lower_message := PyStr.lower message in
  any_keyword_in doc_specific_keywords lower_message.


(* ===================================================================== *)
(** ** chroma_manager.py *)
(* ===================================================================== *)

Module chroma_manager.

(** A metadata value stored with a document: [str], [int] or [bool]. *)
Inductive meta_value :=
| MStr (s : string)
| MInt (z : Z)
| MBool (b : bool).

(** [str(v)] *)
Definition py_str (v : meta_value) : string :=
  match v with
  | MStr s => s
  | MInt z => NilZero.string_of_int (Z.to_int z)
  | MBool true => "True"
  | MBool false => "False"
  end.

(** What [collection.query(query_texts=[q], n_results=k, include=[...])]
    returns for its one query text: [results["documents"][0]],
    [results["metadatas"][0]] (an entry is [None] for a document stored
    without metadata) and [results["distances"][0]]. *)
Record QueryResult := {
  documents : list string;
  metadatas : list (option (gmap string meta_value));
  distances : list spec_float;
}.

(** The collection handle: the nearest-neighbour search of the vector
    store, which may raise. *)
Definition Collection := string -> Z -> py_result QueryResult.

(** The logging loop of [debug_search] over
    [enumerate(zip(documents, metadatas))]: it reads
    [metadata.get('filename', ...)] and [distances[i]]. *)
Fixpoint debug_log (i : nat) (pairs : list (string * option (gmap string meta_value)))
    (dists : list spec_float) : py_result unit :=
  match pairs with
  | [] => PyOk tt
  | (_, metadata) :: rest =>
      match metadata with
      | None => PyRaise AttributeError_get
      | Some _ =>
          match dists !! i with
          | None => PyRaise IndexError
          | Some _ => debug_log (S i) rest dists
          end
      end
  end.

(** [ChromaManager.debug_search]; [collection] is [self.collection]. *)
Definition debug_search (collection : option Collection) (query : string)
    (n_results : Z) : py_result QueryResult :=
  match collection with
  | None => PyRaise (PyExn "RuntimeError" "Not connected to ChromaDB")
  | Some c =>
      match c query n_results with
      | PyRaise e => PyRaise e
      | PyOk results =>
          match debug_log 0 (zip (documents results) (metadatas results))
                  (distances results) with
          | PyRaise e => PyRaise e
          | PyOk _ => PyOk results
          end
      end
  end.

End chroma_manager.

(* ===================================================================== *)
(** ** rag_engine.py *)
(* ===================================================================== *)

Module rag_engine.
Import chroma_manager.

(** The loaded model: [self.llm(prompt, max_tokens=512, stop=[...])]
    followed by [response["choices"][0]["text"]]; either step may raise. *)
Definition Llama := string -> py_result string.

(** The two handles of a [RAGEngine]: [self.chroma.collection] and
    [self.llm] ([None] until connected / loaded). *)
Record RAGEngine := {
  collection : option Collection;
  llm : option Llama;
}.

(** What the outside world answers to one [connect()]:
    [connect_to_chromadb] yields a collection or fails (returns [False]),
    and loading the model yields a handle or raises. *)
Record ConnectEnv := {
  chroma_connect : option Collection;
  llm_load : py_result Llama;
}.

(** [RAGEngine.connect] *)
Definition connect (env : ConnectEnv) (self : RAGEngine) : RAGEngine * bool :=
  match chroma_connect env with
  | None => (self, false)
  | Some c =>
      let self1 := {| collection := Some c; llm := llm self |} in
      match llm_load env with
      | PyOk model => ({| collection := Some c; llm := Some model |}, true)
      | PyRaise _ => (self1, false)
      end
  end.

Definition general_knowledge_text : string :=
  "No relevant information found in the documents. Please answer using your general knowledge.".

(** The list comprehension of [build_prompt]:
    [f"Source: {sources[i]}\nContent: {contexts[i]}"] for
    [i in range(len(contexts))]; [contexts] is the part of the list from
    index [i] on. *)
Fixpoint context_blocks (i : nat) (contexts sources : list string)
    : py_result (list string) :=
  match contexts with
  | [] => PyOk []
  | context :: rest =>
      match sources !! i with
      | None => PyRaise IndexError
      | Some source =>
          match context_blocks (S i) rest sources with
          | PyRaise e => PyRaise e
          | PyOk blocks =>
              PyOk (("Source: " ++ source ++ PyStr.nl ++ "Content: " ++ context) :: blocks)
          end
      end
  end.

(** The f-string template of [build_prompt]. *)
Definition prompt_template (context_text query : string) : string :=
  "<s>[INST] You are a helpful AI assistant. Use the following context to answer the question." ++ PyStr.nl ++
  "If the context is not relevant, answer the question using your general knowledge." ++ PyStr.nl ++
  "At the end of your response, only mention the source files if you used the provided context." ++ PyStr.nl ++
  PyStr.nl ++
  "Context from documents:" ++ PyStr.nl ++
  context_text ++ PyStr.nl ++
  PyStr.nl ++
  "Question: " ++ query ++ PyStr.nl ++
  PyStr.nl ++
  "Please provide a helpful answer. [/INST]".

(** [RAGEngine.build_prompt] *)
Definition build_prompt (query : string) (contexts sources : list string)
    : py_result string :=
  match contexts with
  | [] => PyOk (prompt_template general_knowledge_text query)
  | _ =>
      match context_blocks 0 contexts sources with
      | PyRaise e => PyRaise e
      | PyOk blocks =>
          PyOk (prompt_template (PyStr.join (PyStr.nl ++ PyStr.nl) blocks) query)
      end
  end.

Definition possible_keys : list string := ["filename"; "source"; "_source_file"].

(** The [for key in possible_keys] loop of
    [extract_filename_from_metadata]. *)
Fixpoint first_present_key (keys : list string) (metadata : gmap string meta_value)
    : string :=
  match keys with
  | [] => "Unknown source"
  | key :: rest =>
      match metadata !! key with
      | Some filename => PyStr.basename (py_str filename)
      | None => first_present_key rest metadata
      end
  end.

(** [RAGEngine.extract_filename_from_metadata]; [not metadata] holds for
    [None] and for the empty dict. *)
Definition extract_filename_from_metadata
    (metadata : option (gmap string meta_value)) : string :=
  match metadata with
  | None => "Unknown source"
  | Some md =>
      if bool_decide (md = ∅) then "Unknown source"
      else first_present_key possible_keys md
  end.

(** [DISTANCE_THRESHOLD = 0.7]: the binary64 value nearest to 0.7,
    6305039478318694 * 2^-53. *)
Definition DISTANCE_THRESHOLD : spec_float :=
  S754_finite false 6305039478318694 (-53).

(** [a < b] and [a >= b] on Python floats. *)
Definition float_lt (a b : spec_float) : bool := SFltb a b.
Definition float_ge (a b : spec_float) : bool := SFleb b a.

(** The [for i, doc in enumerate(documents)] loop of [query], started at
    index [i] with the lists [contexts] and [sources] built so far. *)
Fixpoint filter_loop (i : nat) (docs : list string)
    (metadatas : list (option (gmap string meta_value)))
    (distances : list spec_float) (contexts sources : list string)
    : py_result (list string * list string) :=
  match docs with
  | [] => PyOk (contexts, sources)
  | doc :: rest =>
      match distances !! i with
      | None => PyRaise IndexError
      | Some distance =>
          if float_lt distance DISTANCE_THRESHOLD then
            let metadata :=
              match metadatas !! i with
              | Some md => md
              | None => Some ∅
              end in
            filter_loop (S i) rest metadatas distances
              (contexts ++ [PyStr.take 1000 doc])
              (sources ++ [extract_filename_from_metadata metadata])
          else
            filter_loop (S i) rest metadatas distances contexts sources
      end
  end.

(** [list(set(sources))]: the distinct labels, in the set's order. *)
Definition list_set (sources : list string) : list string :=
  elements (list_to_set sources : gset string).

(** The dict returned by [query]. *)
Record QueryReply := {
  answer : string;
  sources : list string;
}.

(** Which [return] of [query] produced the reply. *)
Inductive return_site :=
| AtNotConnected
| AtLLMNotLoaded
| AtAnswer
| AtException.

(** One run of [query]: the [return] taken, the prompt passed to
    [self.llm] (if the call was reached), and the returned dict. *)
Record QueryRun := {
  site : return_site;
  prompt_handed : option string;
  reply : QueryReply;
}.

(** The [except Exception as e] handler of [query]. *)
Definition on_exception (handed : option string) (e : py_exn) : QueryRun :=
  {| site := AtException;
     prompt_handed := handed;
     reply := {| answer := "Error processing your question: " ++ exn_str e;
                 sources := [] |} |}.

(** [RAGEngine.query], with the return site and the prompt recorded. *)
Definition query_run (self : RAGEngine) (question : string) (top_k : Z) : QueryRun :=
  match collection self with
  | None =>
      {| site := AtNotConnected; prompt_handed := None;
         reply := {| answer := "Error: Not connected to ChromaDB"; sources := [] |} |}
  | Some _ =>
      match debug_search (collection self) question top_k with
      | PyRaise e => on_exception None e
      | PyOk results =>
          let filtered :=
            match documents results with
            | [] => PyOk ([], [])
            | documents =>
                filter_loop 0 documents (metadatas results) (distances results) [] []
            end in
          match filtered with
          | PyRaise e => on_exception None e
          | PyOk (contexts, sources) =>
              match build_prompt question contexts sources with
              | PyRaise e => on_exception None e
              | PyOk prompt =>
                  match llm self with
                  | None =>
                      {| site := AtLLMNotLoaded; prompt_handed := None;
                         reply := {| answer := "Error: LLM not loaded";
                                     sources := sources |} |}
                  | Some model =>
                      match model prompt with
                      | PyRaise e => on_exception (Some prompt) e
                      | PyOk text =>
                          let final_sources :=
                            match contexts with
                            | [] => []
                            | _ => list_set sources
                            end in
                          {| site := AtAnswer; prompt_handed := Some prompt;
                             reply := {| answer := PyStr.strip text;
                                         sources := final_sources |} |}
                      end
                  end
              end
          end
      end
  end.

(** [RAGEngine.query]: the returned dict. *)
Definition query (self : RAGEngine) (question : string) (top_k : Z) : QueryReply :=
  reply (query_run self question top_k).

(** The two shapes of dict returned by [generate_response]:
    [{"error", "sources"}] and [{"question", "answer", "sources"}]. *)
Inductive GenResponse :=
| GenError (error : string) (sources : list string)
| GenAnswer (question answer : string) (sources : list string).

(** [RAGEngine.generate_response]; [query] is called with its default
    [top_k = 3].  Neither [connect] nor [query] raises, so the handler
    of the enclosing [try] is never entered. *)
Definition generate_response (env : ConnectEnv) (self : RAGEngine) (message : string)
    : RAGEngine * GenResponse :=
  let '(self1, ready) :=
    match llm self with
    | Some _ => (self, true)
    | None => connect env self
    end in
  if ready then
    let result := query self1 message 3 in
    (self1, GenAnswer message (answer result) (sources result))
  else
    (self1, GenError "Failed to initialize LLM" []).

(** The f-string template of [direct_response]. *)
Definition direct_prompt (message : string) : string :=
  "<s>[INST] You are a helpful AI assistant. Answer the following question using your general knowledge." ++ PyStr.nl ++
  PyStr.nl ++
  "Question: " ++ message ++ PyStr.nl ++
  "Answer: [/INST]".

(** [RAGEngine.direct_response]: no [try] surrounds the model call. *)
Definition direct_response (env : ConnectEnv) (self : RAGEngine) (message : string)
    : RAGEngine * py_result string :=
  let '(self1, ready) :=
    match llm self with
    | Some _ => (self, true)
    | None => connect env self
    end in
  if ready then
    match llm self1 with
    | None => (self1, PyRaise (PyExn "TypeError" "'NoneType' object is not callable"))
    | Some model =>
        match model (direct_prompt message) with
        | PyRaise e => (self1, PyRaise e)
        | PyOk text => (self1, PyOk (PyStr.strip text))
        end
    end
  else
    (self1, PyOk "Error: LLM not loaded").

(** [self.chroma.disconnect()]: the collection handle is dropped, the
    model handle is not touched. *)
Definition chroma_disconnect (self : RAGEngine) : RAGEngine :=
  {| collection := None; llm := llm self |}.

End rag_engine.

(* ===================================================================== *)
(** ** backend_app.py: sessions and handlers *)
(* ===================================================================== *)

Module backend_app.
Import rag_engine.

Record ChatRequest := {
  message : string;
  session_id : option string;
  search_documents : bool;
}.

Record ChatMessage := {
  role : string;
  content : string;
  timestamp : string;
  sources : list string;
  search_used : bool;
}.

Record ChatSession := {
  cs_session_id : string;
  title : string;
  created_at : string;
  messages : list ChatMessage;
  updated_at : string;
}.

(** The process state the handlers work on: the global [chat_sessions]
    dict, the sessions last written to [PERSISTENCE_FILE] ([None] while
    the file does not exist) and the global [rag_engine]. *)
Record Server := {
  chat_sessions : gmap string ChatSession;
  persisted : option (gmap string ChatSession);
  engine : RAGEngine;
}.

(** What the outside world answers during one request: the value of
    [uuid.uuid4()], the three readings of [datetime.now().isoformat()],
    the outcome of a [connect()] and whether [PERSISTENCE_FILE] can be
    opened for writing. *)
Record RequestEnv := {
  uuid4 : string;
  now_start : string;
  now_assistant : string;
  now_update : string;
  connect_env : ConnectEnv;
  file_writable : bool;
}.

(** [save_sessions]: rewrites the whole file; an I/O error is printed
    and swallowed, leaving the file as it was. *)
Definition save_sessions (env : RequestEnv) (sessions : gmap string ChatSession)
    (file : option (gmap string ChatSession)) : option (gmap string ChatSession) :=
  if file_writable env then Some sessions else file.

Inductive HttpResponse (A : Type) :=
| Http200 (body : A)
| HttpError (status_code : nat) (detail : string).
Arguments Http200 {A} body.
Arguments HttpError {A} status_code detail.

(** [get_session] *)
Definition get_session (srv : Server) (sid : string) : HttpResponse ChatSession :=
  match chat_sessions srv !! sid with
  | None => HttpError 404 "Session not found"
  | Some s => Http200 s
  end.

(** [delete_session] *)
Definition delete_session (env : RequestEnv) (srv : Server) (sid : string)
    : Server * HttpResponse string :=
  match chat_sessions srv !! sid with
  | Some _ =>
      let sessions := delete sid (chat_sessions srv) in
      ({| chat_sessions := sessions;
          persisted := save_sessions env sessions (persisted srv);
          engine := engine srv |},
       Http200 "Session deleted successfully")
  | None => (srv, HttpError 404 "Session not found")
  end.

(** The body of the 200 response of [chat_endpoint]. *)
Record ChatReply := {
  reply_session_id : string;
  reply_message : string;
  reply_sources : list string;
  history : list ChatMessage;
}.

(** [session.messages.append(m)] on the session stored under [sid]. *)
Definition append_message (m : ChatMessage) (s : ChatSession) : ChatSession :=
  {| cs_session_id := cs_session_id s; title := title s;
     created_at := created_at s; messages := messages s ++ [m];
     updated_at := updated_at s |}.

(** [not session_id or session_id not in chat_sessions] *)
Definition needs_new_session (sessions : gmap string ChatSession)
    (session_id : option string) : bool :=
  match session_id with
  | None => true
  | Some sid => String.eqb sid "" || negb (bool_decide (is_Some (sessions !! sid)))
  end.

(** [ChatSession(session_id=..., title=generate_session_title(...),
    created_at=now, updated_at=now, messages=[])] *)
Definition new_session (env : RequestEnv) (request : ChatRequest) (sid : string)
    : ChatSession :=
  {| cs_session_id := sid;
     title := generate_session_title (message request);
     created_at := now_start env; messages := [];
     updated_at := now_start env |}.

(** [ChatMessage(role="user", content=request.message, timestamp=now,
    search_used=request.search_documents)]; [sources] takes its default. *)
Definition user_message (env : RequestEnv) (request : ChatRequest) : ChatMessage :=
  {| role := "user"; content := message request; timestamp := now_start env;
     sources := []; search_used := search_documents request |}.

(** The id of the session the request works on: a new uuid, or the
    request's own id when it names a stored session. *)
Definition target_session_id (env : RequestEnv) (srv : Server)
    (request : ChatRequest) : string :=
  if needs_new_session (chat_sessions srv) (session_id request)
  then uuid4 env
  else default "" (session_id request).

(** The last three statements before [return]: the title is re-derived
    when the session holds exactly two messages, [updated_at] is set. *)
Definition finish_session (env : RequestEnv) (request : ChatRequest)
    (s : ChatSession) : ChatSession :=
  {| cs_session_id := cs_session_id s;
     title := if (length (messages s) =? 2)%nat
              then generate_session_title (message request)
              else title s;
     created_at := created_at s;
     messages := messages s;
     updated_at := now_update env |}.

(** The [if should_search: ... else: ...] block: the answer and the
    sources, or the exception that leaves the block. *)
Definition answer_request (env : RequestEnv) (self : RAGEngine)
    (request : ChatRequest) (should_search : bool)
    : RAGEngine * py_result (string * list string) :=
  if should_search then
    let '(e, rag_response) :=
      generate_response (connect_env env) self (message request) in
    match rag_response with
    | GenAnswer _ answer sources => (e, PyOk (answer, sources))
    | GenError _ _ => (e, PyRaise (KeyError "answer"))
    end
  else
    let '(e, r) := direct_response (connect_env env) self (message request) in
    match r with
    | PyOk answer => (e, PyOk (answer, []))
    | PyRaise ex => (e, PyRaise ex)
    end.

(** [chat_endpoint].  The session object is shared with [chat_sessions],
    so each mutation is written to the store where it happens; the
    [except Exception] handler turns a raise into a 500 and keeps the
    state reached so far. *)
Definition chat_endpoint (env : RequestEnv) (srv : Server) (request : ChatRequest)
    : Server * HttpResponse ChatReply :=
  let sid := target_session_id env srv request in
  let sessions0 :=
    if needs_new_session (chat_sessions srv) (session_id request)
    then <[sid := new_session env request sid]> (chat_sessions srv)
    else chat_sessions srv in
  match sessions0 !! sid with
  | None => (srv, HttpError 500 (exn_str (KeyError sid)))
  | Some session0 =>
      let session1 := append_message (user_message env request) session0 in
      let sessions1 := <[sid := session1]> sessions0 in
      let should_search :=
        search_documents request && needs_document_search (message request) in
      let '(engine1, outcome) :=
        answer_request env (engine srv) request should_search in
      match outcome with
      | PyRaise ex =>
          ({| chat_sessions := sessions1; persisted := persisted srv;
              engine := engine1 |},
           HttpError 500 (exn_str ex))
      | PyOk (answer, sources) =>
          let assistant_message :=
            {| role := "assistant"; content := answer;
               timestamp := now_assistant env;
               sources := sources; search_used := should_search |} in
          let session3 :=
            finish_session env request
              (append_message assistant_message session1) in
          let sessions3 := <[sid := session3]> sessions1 in
          ({| chat_sessions := sessions3;
              persisted := save_sessions env sessions3 (persisted srv);
              engine := engine1 |},
           Http200 {| reply_session_id := sid; reply_message := answer;
                      reply_sources := sources;
                      history := messages session3 |})
      end
  end.

Record NewSessionRequest := {
  requested_title : option string;
}.

(** The body of the 200 response of [create_new_session]. *)
Record NewSessionReply := {
  new_session_id : string;
  new_title : string;
}.

(** [request.title or "New Chat"]: [None] and the empty string are falsy. *)
Definition title_or_default (t : option string) : string :=
  match t with
  | Some s => if String.eqb s "" then "New Chat" else s
  | None => "New Chat"
  end.

(** [create_new_session] *)
Definition create_new_session (env : RequestEnv) (srv : Server)
    (request : NewSessionRequest) : Server * HttpResponse NewSessionReply :=
  let sid := uuid4 env in
  let now := now_start env in
  let sessions :=
    <[sid := {| cs_session_id := sid;
                title := title_or_default (requested_title request);
                created_at := now; messages := []; updated_at := now |}]>
      (chat_sessions srv) in
  ({| chat_sessions := sessions;
      persisted := save_sessions env sessions (persisted srv);
      engine := engine srv |},
   Http200 {| new_session_id := sid;
              new_title := title_or_default (requested_title request) |}).

(** One step of a stable descending sort on [updated_at]: [s], which
    came before every element of [sorted] in the input, goes after the
    elements with a greater key and before those with an equal or smaller
    one. *)
Fixpoint insert_by_updated_at (s : ChatSession) (sorted : list ChatSession)
    : list ChatSession :=
  match sorted with
  | [] => [s]
  | y :: rest =>
      if String.ltb (updated_at s) (updated_at y)
      then y :: insert_by_updated_at s rest
      else s :: y :: rest
  end.

(** [sorted(values, key=lambda x: x["updated_at"], reverse=True)]: the
    stable sort on the string key, greatest first. *)
Definition sorted_by_updated_at_desc (values : list ChatSession) : list ChatSession :=
  foldr insert_by_updated_at [] values.

(** [get_all_sessions].  The store does not keep the insertion order of
    the dict, so sessions with equal [updated_at] may come out in another
    relative order than in the program. *)
Definition get_all_sessions (srv : Server) : HttpResponse (list ChatSession) :=
  Http200 (sorted_by_updated_at_desc (snd <$> map_to_list (chat_sessions srv))).

End backend_app.

(* ===================================================================== *)
(** ** frontend_app.py: grouping the session list *)
(* ===================================================================== *)

Module frontend_app.

(** A session dict as the sidebar reads it; [created_at] is [None] when
    the key is missing (KeyError). *)
Record Session := {
  session_id : string;
  title : string;
  created_at : option string;
}.

(** [s.replace('Z', '+00:00')] *)
Fixpoint replace_Z (s : string) : string :=
  match s with
  | EmptyString => EmptyString
  | String c s' =>
      if Ascii.eqb c "Z" then "+00:00" ++ replace_Z s'
      else String c (replace_Z s')
  end.

(** [grouped[key].append(x)], creating the list first when [key] is new;
    the dict keeps its keys in insertion order. *)
Fixpoint dict_append (key : string) (x : Session)
    (grouped : list (string * list Session)) : list (string * list Session) :=
  match grouped with
  | [] => [(key, [x])]
  | (k, l) :: rest =>
      if String.eqb k key then (k, (l ++ [x])%list) :: rest
      else (k, l) :: dict_append key x rest
  end.

(** [grouped.get(key)] *)
Fixpoint dict_get (key : string) (grouped : list (string * list Session))
    : option (list Session) :=
  match grouped with
  | [] => None
  | (k, l) :: rest => if String.eqb k key then Some l else dict_get key rest
  end.

Section Layout.

(** The date library, as the function uses it: [datetime.fromisoformat]
    ([None] for ValueError), the day number of [.date()], and
    [.strftime("%B %Y")]; and the day number of today's date in UTC. *)
Variable datetime : Type.
Variable fromisoformat : string -> option datetime.
Variable date_ordinal : datetime -> Z.
Variable strftime_month_year : datetime -> string.
Variable today : Z.

(** The [if / elif] chain on [delta.days]. *)
Definition group_name_of (session_time : datetime) : string :=
  let delta_days := (today - date_ordinal session_time)%Z in
  if (delta_days =? 0)%Z then "Today"
  else if (delta_days =? 1)%Z then "Yesterday"
  else if ((1 <? delta_days) && (delta_days <=? 7))%Z then "Previous 7 Days"
  else if ((7 <? delta_days) && (delta_days <=? 30))%Z then "Previous 30 Days"
  else strftime_month_year session_time.

(** One round of the [for session in sessions] loop. *)
Definition group_step (grouped : list (string * list Session)) (session : Session)
    : list (string * list Session) :=
  match created_at session with
  | None => dict_append "Unknown" session grouped
  | Some text =>
      match fromisoformat (replace_Z text) with
      | None => dict_append "Unknown" session grouped
      | Some session_time =>
          let group_name := group_name_of session_time in
          if String.eqb group_name "" then grouped
          else dict_append group_name session grouped
      end
  end.

(** [group_sessions_for_chatgpt_layout] *)
Definition group_sessions_for_chatgpt_layout (sessions : list Session)
    : list (string * list Session) :=
  fold_left group_step sessions [].

(** The group a session is filed under, if any. *)
Definition filed_under (session : Session) : option string :=
  match created_at session with
  | None => Some "Unknown"
  | Some text =>
      match fromisoformat (replace_Z text) with
      | None => Some "Unknown"
      | Some session_time =>
          if String.eqb (group_name_of session_time) "" then None
          else Some (group_name_of session_time)
      end
  end.

(** The sessions of a list that are filed under [key], in order. *)
Definition filed_sessions (key : string) (sessions : list Session) : list Session :=
  List.filter
    (fun s => match filed_under s with
              | Some g => String.eqb g key
              | None => false
              end)
    sessions.

End Layout.

End frontend_app.

(* ===================================================================== *)
(** ** Vocabulary of the statements *)
(* ===================================================================== *)

Import chroma_manager rag_engine backend_app.

(** [k] occurs in [s] as a contiguous part. *)
Definition occurs_in (k s : string) : Prop :=
  exists pre post : string, s = pre ++ k ++ post.

(** Two messages that differ at most in the case of their letters. *)
Definition same_ignoring_case (m1 m2 : string) : Prop :=
  PyStr.lower m1 = PyStr.lower m2.

(** The source label [query] extracts for the passage at index [i]. *)
Definition source_label (results : QueryResult) (i : nat) : string :=
  extract_filename_from_metadata
    match metadatas results !! i with
    | Some md => md
    | None => Some ∅
    end.

(** The passage at index [i] is among those retrieved, with distance [d]. *)
Definition retrieved (results : QueryResult) (i : nat) (d : spec_float) : Prop :=
  (i < length (documents results))%nat /\ distances results !! i = Some d.

(** No retrieved passage passes the distance filter. *)
Definition none_passes (results : QueryResult) : Prop :=
  forall i d, retrieved results i d -> float_lt d DISTANCE_THRESHOLD = false.

(** The messages of the session stored under [sid] (none if absent). *)
Definition messages_of (srv : Server) (sid : string) : list ChatMessage :=
  match chat_sessions srv !! sid with
  | Some s => messages s
  | None => []
  end.

(** [should_search] as [chat_endpoint] computes it. *)
Definition should_search_of (request : ChatRequest) : bool :=
  search_documents request && needs_document_search (message request).

(** The session the user message is appended to: a blank one under a new
    uuid, or the stored one the request names. *)
Definition base_session (env : RequestEnv) (srv : Server) (request : ChatRequest)
    (s0 : ChatSession) : Prop :=
  if needs_new_session (chat_sessions srv) (session_id request)
  then s0 = new_session env request (uuid4 env)
  else session_id request = Some (target_session_id env srv request) /\
       chat_sessions srv !! target_session_id env srv request = Some s0.

(** The store once the user message is appended to [s0]. *)
Definition after_user (env : RequestEnv) (srv : Server) (request : ChatRequest)
    (s0 : ChatSession) : gmap string ChatSession :=
  <[target_session_id env srv request :=
      append_message (user_message env request) s0]>
    (if needs_new_session (chat_sessions srv) (session_id request)
     then <[target_session_id env srv request := s0]> (chat_sessions srv)
     else chat_sessions srv).

(** The assistant message of a completed turn. *)
Definition assistant_message (env : RequestEnv) (request : ChatRequest)
    (answer : string) (srcs : list string) : ChatMessage :=
  {| role := "assistant"; content := answer; timestamp := now_assistant env;
     backend_app.sources := srcs; search_used := should_search_of request |}.

(** The session [s0] after a completed turn. *)
Definition after_assistant (env : RequestEnv) (request : ChatRequest)
    (s0 : ChatSession) (answer : string) (srcs : list string) : ChatSession :=
  finish_session env request
    (append_message (assistant_message env request answer srcs)
       (append_message (user_message env request) s0)).

(** The labels [query] appends for the passages at the indices [idx]. *)
Definition labels_at (results : QueryResult) (idx : list nat) : list string :=
  map (source_label results) idx.

(** The indices of the retrieved passages that pass the distance filter,
    in retrieval order. *)
Definition passing (results : QueryResult) : list nat :=
  List.filter
    (fun i => match distances results !! i with
              | Some d => float_lt d DISTANCE_THRESHOLD
              | None => false
              end)
    (seq 0 (length (documents results))).

(** The truncated text [query] keeps for the passage at index [i]. *)
Definition context_at (results : QueryResult) (i : nat) : string :=
  PyStr.take 1000 (default "" (documents results !! i)).

(** The block [build_prompt] writes for one accepted passage. *)
Definition prompt_block (source context : string) : string :=
  "Source: " ++ source ++ PyStr.nl ++ "Content: " ++ context.

(** The store's answer is well formed: a distance for every document and
    no [None] among the metadata entries paired with documents. *)
Definition well_formed (results : QueryResult) : Prop :=
  (length (documents results) <= length (distances results))%nat /\
  forall i, (i < length (documents results))%nat ->
            metadatas results !! i <> Some None.

(** [a] may come before [b] in the list of [get_all_sessions]. *)
Definition not_older (a b : ChatSession) : Prop :=
  String.leb (updated_at b) (updated_at a) = true.

(** The file holds exactly the sessions in memory. *)
Definition in_sync (srv : Server) : Prop :=
  persisted srv = Some (chat_sessions srv).

(** The engine never holds a model without a collection. *)
Definition engine_ok (e : RAGEngine) : Prop :=
  llm e <> None -> collection e <> None.

(* ===================================================================== *)
(** ** Sample data *)
(* ===================================================================== *)

Module Sample.
Import chroma_manager rag_engine.

(** 0.42 and 0.9 as binary64 values. *)
Definition d042 : spec_float := S754_finite false 7566047373982433 (-54).
Definition d09 : spec_float := S754_finite false 8106479329266893 (-53).

Definition results : QueryResult :=
  {| documents := ["Manoj led the cloud migration."; "A recipe for soup."];
     metadatas := [Some {[ "filename" := MStr "/docs/resume.pdf" ]};
                   Some {[ "source" := MStr "misc/soup.txt" ]}];
     distances := [d042; d09] |}.

Definition far_results : QueryResult :=
  {| documents := ["A recipe for soup."];
     metadatas := [Some {[ "source" := MStr "misc/soup.txt" ]}];
     distances := [d09] |}.

Definition store : Collection := fun _ _ => PyOk results.
Definition far_store : Collection := fun _ _ => PyOk far_results.
Definition model : Llama := fun _ => PyOk " See the resume. ".
Definition failing_model : Llama :=
  fun _ => PyRaise (PyExn "ValueError" "Requested tokens exceed context window").

Definition ready_engine : RAGEngine :=
  {| collection := Some store; llm := Some model |}.
Definition far_engine : RAGEngine :=
  {| collection := Some far_store; llm := Some model |}.
Definition no_llm_engine : RAGEngine :=
  {| collection := Some store; llm := None |}.
Definition failing_engine : RAGEngine :=
  {| collection := Some store; llm := Some failing_model |}.

Definition session : ChatSession :=
  {| cs_session_id := "s1"; title := "New Chat"; created_at := "t0";
     messages := []; updated_at := "t0" |}.

Definition env : RequestEnv :=
  {| uuid4 := "u1"; now_start := "t1"; now_assistant := "t2";
     now_update := "t3";
     connect_env := {| chroma_connect := Some store; llm_load := PyOk model |};
     file_writable := true |}.

Definition server (e : RAGEngine) : Server :=
  {| chat_sessions := {[ "s1" := session ]}; persisted := None; engine := e |}.

(** A general question on the stored session, and a document question
    that opens a new session. *)
Definition weather_request : ChatRequest :=
  {| message := "What's the weather like?"; session_id := Some "s1";
     search_documents := true |}.
Definition cv_request : ChatRequest :=
  {| message := "What is your CV experience?"; session_id := None;
     search_documents := true |}.

(** The bodies of the 200 responses to the two requests. *)
Definition cv_reply : ChatReply :=
  {| reply_session_id := "u1"; reply_message := "See the resume.";
     reply_sources := ["resume.pdf"];
     history :=
       [ {| role := "user"; content := "What is your CV experience?";
            timestamp := "t1"; backend_app.sources := []; search_used := true |};
         {| role := "assistant"; content := "See the resume.";
            timestamp := "t2"; backend_app.sources := ["resume.pdf"];
            search_used := true |} ] |}.
Definition weather_reply : ChatReply :=
  {| reply_session_id := "s1"; reply_message := "See the resume.";
     reply_sources := [];
     history :=
       [ {| role := "user"; content := "What's the weather like?";
            timestamp := "t1"; backend_app.sources := []; search_used := true |};
         {| role := "assistant"; content := "See the resume.";
            timestamp := "t2"; backend_app.sources := [];
            search_used := false |} ] |}.

(** A store answer with a document that was stored without metadata. *)
Definition bare_results : QueryResult :=
  {| documents := ["Manoj led the cloud migration."; "A recipe for soup."];
     metadatas := [Some {[ "filename" := MStr "/docs/resume.pdf" ]}; None];
     distances := [d042; d09] |}.
Definition bare_store : Collection := fun _ _ => PyOk bare_results.
Definition bare_engine : RAGEngine :=
  {| collection := Some bare_store; llm := Some model |}.

(** An engine that cannot be initialised: nothing is loaded and the model
    file is missing. *)
Definition cold_engine : RAGEngine := {| collection := None; llm := None |}.
Definition cold_env : RequestEnv :=
  {| uuid4 := "u1"; now_start := "t1"; now_assistant := "t2";
     now_update := "t3";
     connect_env :=
       {| chroma_connect := Some store;
          llm_load := PyRaise (PyExn "FileNotFoundError" "LLM model not found: ") |};
     file_writable := true |}.

(** The document question asked on the stored session. *)
Definition cv_s1_request : ChatRequest :=
  {| message := "What is your CV experience?"; session_id := Some "s1";
     search_documents := true |}.

(** The body of the 200 response when that question is asked again after
    a failed first attempt. *)
Definition retry_reply : ChatReply :=
  {| reply_session_id := "s1"; reply_message := "See the resume.";
     reply_sources := ["resume.pdf"];
     history :=
       [ {| role := "user"; content := "What is your CV experience?";
            timestamp := "t1"; backend_app.sources := []; search_used := true |};
         {| role := "user"; content := "What is your CV experience?";
            timestamp := "t1"; backend_app.sources := []; search_used := true |};
         {| role := "assistant"; content := "See the resume.";
            timestamp := "t2"; backend_app.sources := ["resume.pdf"];
            search_used := true |} ] |}.

(** A sidebar list: dates are read as day numbers by a toy parser, today
    is day 10, and every month label is the same. *)
Definition parse_day (text : string) : option Z :=
  if String.eqb text "2026-11-04T09:00:00+00:00" then Some 10%Z
  else if String.eqb text "2026-11-01T09:00:00" then Some 7%Z
  else if String.eqb text "2026-11-05T01:00:00" then Some 11%Z
  else None.
Definition month_label (day : Z) : string := "November 2026".
Definition sidebar_sessions : list frontend_app.Session :=
  [ {| frontend_app.session_id := "a"; frontend_app.title := "first";
       frontend_app.created_at := Some "2026-11-04T09:00:00Z" |};
    {| frontend_app.session_id := "b"; frontend_app.title := "second";
       frontend_app.created_at := Some "yesterday" |};
    {| frontend_app.session_id := "c"; frontend_app.title := "third";
       frontend_app.created_at := Some "2026-11-01T09:00:00" |};
    {| frontend_app.session_id := "d"; frontend_app.title := "fourth";
       frontend_app.created_at := Some "2026-11-05T01:00:00" |};
    {| frontend_app.session_id := "e"; frontend_app.title := "fifth";
       frontend_app.created_at := None |} ].

(** A server whose file holds its sessions. *)
Definition synced_server (e : RAGEngine) : Server :=
  {| chat_sessions := {[ "s1" := session ]};
     persisted := Some {[ "s1" := session ]}; engine := e |}.

(** Two passing passages taken from the same file. *)
Definition twin_results : QueryResult :=
  {| documents := ["Manoj led the cloud migration."; "Manoj managed a team."];
     metadatas := [Some {[ "filename" := MStr "/docs/resume.pdf" ]};
                   Some {[ "source" := MStr "resume.pdf" ]}];
     distances := [d042; d042] |}.
Definition twin_store : Collection := fun _ _ => PyOk twin_results.
Definition twin_engine : RAGEngine :=
  {| collection := Some twin_store; llm := Some model |}.

End Sample.

(* ===================================================================== *)
(** ** Properties of the string helpers *)
(* ===================================================================== *)

Section StringFacts.

Lemma prefix_app (k post : string) : String.prefix k (k ++ post) = true.
Proof.
  induction k as [|c k IH]; simpl.
  - destruct post; reflexivity.
  - destruct (ascii_dec c c) as [_|Hne]; [exact IH | contradiction].
Qed.

Lemma prefix_split (k s : string) :
  String.prefix k s = true -> exists post, s = k ++ post.
Proof.
  revert k. induction s as [|b s IH]; intros [|a k] H; simpl in H.
  - exists EmptyString. reflexivity.
  - discriminate.
  - exists (String b s). reflexivity.
  - destruct (ascii_dec a b) as [->|_]; [|discriminate].
    destruct (IH _ H) as [post ->]. exists post. reflexivity.
Qed.

Lemma contains_occurs (k s : string) :
  PyStr.contains k s = true <-> occurs_in k s.
Proof.
  split.
  - induction s as [|c s IH]; cbn [PyStr.contains]; intros H.
    + apply orb_prop in H as [H|H]; [|discriminate].
      apply prefix_split in H as [post ->]. exists EmptyString, post. reflexivity.
    + apply orb_prop in H as [H|H].
      * apply prefix_split in H as [post Hpost].
        exists EmptyString, post. exact Hpost.
      * destruct (IH H) as (pre & post & ->).
        exists (String c pre), post. reflexivity.
  - intros (pre & post & ->).
    induction pre as [|c pre IH].
    + change ("" ++ k ++ post) with (k ++ post).
      destruct (k ++ post) eqn:E; cbn [PyStr.contains]; rewrite <- E;
        rewrite prefix_app; reflexivity.
    + change (String c pre ++ k ++ post) with (String c (pre ++ k ++ post)).
      cbn [PyStr.contains]. rewrite IH. apply orb_true_r.
Qed.

Lemma any_keyword_in_spec (keywords : list string) (s : string) :
  any_keyword_in keywords s = true <->
  exists k, In k keywords /\ occurs_in k s.
Proof.
  induction keywords as [|k0 rest IH]; simpl.
  - split; [discriminate | intros (k & [] & _)].
  - destruct (PyStr.contains k0 s) eqn:E.
    + split; [|reflexivity]. intros _. exists k0. split; [now left|].
      apply contains_occurs. exact E.
    + rewrite IH. split.
      * intros (k & Hin & Hk). exists k. split; [now right | exact Hk].
      * intros (k & [<-|Hin] & Hk).
        -- apply contains_occurs in Hk. congruence.
        -- exists k. split; assumption.
Qed.

Lemma take_split (n : nat) (s : string) :
  (n <= String.length s)%nat ->
  exists rest, s = PyStr.take n s ++ rest /\ String.length (PyStr.take n s) = n.
Proof.
  unfold PyStr.take. revert s.
  induction n as [|n IH]; intros s Hn.
  - exists s. destruct s; split; reflexivity.
  - destruct s as [|c s]; simpl in Hn; [lia|].
    destruct (IH s ltac:(lia)) as (rest & Hs & Hlen).
    exists rest. simpl. split; [|f_equal; exact Hlen].
    change (String c s = String c (substring 0 n s ++ rest)).
    f_equal. exact Hs.
Qed.

End StringFacts.

(* ===================================================================== *)
(** ** Title derivation and keyword router *)
(* ===================================================================== *)

(** C9: the derived session title is the message itself when the message
    has at most 30 characters, and otherwise the first 30 characters of
    the message followed by three dots. *)
Theorem generate_session_title_spec (m : string) :
  ((String.length m <= 30)%nat -> generate_session_title m = m) /\
  ((30 < String.length m)%nat ->
     exists first rest : string,
       m = first ++ rest /\ String.length first = 30%nat /\
       generate_session_title m = first ++ "...").
Proof.
  unfold generate_session_title. split; intros H.
  - destruct (Nat.ltb_spec 30 (String.length m)); [lia | reflexivity].
  - destruct (Nat.ltb_spec 30 (String.length m)); [|lia].
    destruct (take_split 30 m ltac:(lia)) as (rest & Hm & Hlen).
    exists (PyStr.take 30 m), rest. auto.
Qed.

Lemma generate_session_title_spec_witness :
  generate_session_title "Tell me about the CV" = "Tell me about the CV" /\
  exists first rest : string,
    "What experience does Manoj have with digital transformation?" = first ++ rest /\
    String.length first = 30%nat /\
    generate_session_title
      "What experience does Manoj have with digital transformation?" = first ++ "...".
Proof.
  split.
  - apply (proj1 (generate_session_title_spec "Tell me about the CV")). simpl. lia.
  - apply (proj2 (generate_session_title_spec
                    "What experience does Manoj have with digital transformation?")).
    simpl. lia.
Defined.

(** C4: the keyword router answers true exactly when one of the configured
    keywords occurs as a substring of the lowercased message; hence two
    messages that differ only in letter case are routed alike. *)
Theorem needs_document_search_spec (message : string) :
  (needs_document_search message = true <->
     exists k, In k doc_specific_keywords /\ occurs_in k (PyStr.lower message)) /\
  (forall other : string,
     same_ignoring_case message other ->
     needs_document_search other = needs_document_search message).
Proof.
  split.
  - unfold needs_document_search. apply any_keyword_in_spec.
  - intros other Hsame. unfold needs_document_search.
    rewrite Hsame. reflexivity.
Qed.

Lemma needs_document_search_spec_witness :
  (needs_document_search "Show me the RESUME" = true <->
     exists k, In k doc_specific_keywords /\
               occurs_in k (PyStr.lower "Show me the RESUME")) /\
  needs_document_search "show me the resume" = needs_document_search "Show me the RESUME".
Proof.
  split.
  - apply (proj1 (needs_document_search_spec "Show me the RESUME")).
  - apply (proj2 (needs_document_search_spec "Show me the RESUME")). reflexivity.
Defined.

(* ===================================================================== *)
(** ** Session deletion *)
(* ===================================================================== *)

(** C6: deleting an id that is not in the store answers 404 and changes
    nothing; deleting a stored id removes that session and no other, and a
    later [get_session] on the id answers 404. *)
Theorem delete_session_spec (env : RequestEnv) (srv : Server) (sid : string) :
  (chat_sessions srv !! sid = None ->
     delete_session env srv sid = (srv, HttpError 404 "Session not found")) /\
  (is_Some (chat_sessions srv !! sid) ->
     let srv' := fst (delete_session env srv sid) in
     snd (delete_session env srv sid) = Http200 "Session deleted successfully" /\
     chat_sessions srv' !! sid = None /\
     (forall other, other <> sid ->
        chat_sessions srv' !! other = chat_sessions srv !! other) /\
     get_session srv' sid = HttpError 404 "Session not found").
Proof.
  unfold delete_session. split.
  - intros ->. reflexivity.
  - intros [s Hs]. rewrite Hs. cbn [fst snd chat_sessions].
    repeat split.
    + apply lookup_delete_eq.
    + intros other Hne. apply lookup_delete_ne. congruence.
    + unfold get_session. cbn [chat_sessions].
      rewrite lookup_delete_eq. reflexivity.
Qed.

Lemma delete_session_spec_witness :
  delete_session Sample.env (Sample.server Sample.ready_engine) "s2" =
    (Sample.server Sample.ready_engine, HttpError 404 "Session not found") /\
  get_session
    (fst (delete_session Sample.env (Sample.server Sample.ready_engine) "s1")) "s1" =
    HttpError 404 "Session not found".
Proof.
  split.
  - apply (proj1 (delete_session_spec Sample.env
                    (Sample.server Sample.ready_engine) "s2")).
    reflexivity.
  - apply (proj2 (delete_session_spec Sample.env
                    (Sample.server Sample.ready_engine) "s1")).
    exists Sample.session. reflexivity.
Defined.


(* ===================================================================== *)
(** ** The relevance filter *)
(* ===================================================================== *)

Section FloatOrder.

(** The threshold is the binary64 value the literal [0.7] denotes: a
    53-bit significand [m] with exponent -53 whose value [m / 2^53] is
    within half a unit in the last place of 7/10. *)
Example threshold_is_0_7 :
  exists m : positive,
    DISTANCE_THRESHOLD = S754_finite false m (-53) /\
    (2 ^ 52 <= Z.pos m < 2 ^ 53)%Z /\
    (Z.abs (10 * Z.pos m - 7 * 2 ^ 53) < 5)%Z.
Proof.
  exists 6305039478318694%positive.
  split; [reflexivity|]. split; [split|]; vm_compute; congruence.
Qed.

Lemma SFcompare_antisym (x y : spec_float) :
  SFcompare y x = option_map CompOpp (SFcompare x y).
Proof.
  destruct x as [sx|sx| |sx mx ex], y as [sy|sy| |sy my ey];
    try reflexivity;
    try (destruct sx; reflexivity);
    try (destruct sy; reflexivity);
    try (destruct sx, sy; reflexivity).
  cbn [SFcompare option_map].
  pose proof (Pos.compare_cont_antisym mx my Eq) as Hm. cbn [CompOpp] in Hm.
  destruct sx, sy; cbn [CompOpp]; try reflexivity;
    rewrite (Z.compare_antisym ex ey);
    destruct (ex ?= ey)%Z; cbn [CompOpp]; try reflexivity;
    rewrite <- Hm; destruct (Pos.compare_cont Eq mx my); reflexivity.
Qed.

(** [d >= t] excludes [d < t]. *)
Lemma float_ge_not_lt (d t : spec_float) :
  float_ge d t = true -> float_lt d t = false.
Proof.
  unfold float_ge, float_lt, SFleb, SFltb.
  rewrite (SFcompare_antisym d t).
  destruct (SFcompare d t) as [[]|]; cbn; congruence.
Qed.

Lemma float_lt_not_ge (d t : spec_float) :
  float_lt d t = true -> float_ge d t = false.
Proof.
  intros H. destruct (float_ge d t) eqn:E; [|reflexivity].
  apply float_ge_not_lt in E. congruence.
Qed.

End FloatOrder.

Section FilterLoop.

Variables (metas : list (option (gmap string meta_value)))
          (dists : list spec_float).

(** The label the loop appends for index [i]. *)
Let label (i : nat) : string :=
  extract_filename_from_metadata
    match metas !! i with Some md => md | None => Some ∅ end.

(** The loop appends to both lists in step. *)
Lemma filter_loop_lengths docs : forall i ctx src ctx' src',
  filter_loop i docs metas dists ctx src = PyOk (ctx', src') ->
  length ctx = length src -> length ctx' = length src'.
Proof.
  induction docs as [|doc rest IH]; intros i ctx src ctx' src' Hrun Hlen;
    cbn [filter_loop] in Hrun.
  - injection Hrun as <- <-. exact Hlen.
  - destruct (dists !! i) as [d|]; [|discriminate].
    destruct (float_lt d DISTANCE_THRESHOLD).
    + apply IH in Hrun; [exact Hrun|]. rewrite !length_app. simpl. lia.
    + apply IH in Hrun; [exact Hrun | exact Hlen].
Qed.

(** Every label in the result was there before or was appended for an
    index whose distance is below the threshold. *)
Lemma filter_loop_sound docs : forall i ctx src ctx' src' s,
  filter_loop i docs metas dists ctx src = PyOk (ctx', src') ->
  s ∈ src' ->
  s ∈ src \/
  exists j d, (i <= j < i + length docs)%nat /\ dists !! j = Some d /\
              float_lt d DISTANCE_THRESHOLD = true /\ s = label j.
Proof.
  induction docs as [|doc rest IH]; intros i ctx src ctx' src' s Hrun Hs;
    cbn [filter_loop] in Hrun.
  - injection Hrun as <- <-. left. exact Hs.
  - destruct (dists !! i) as [d|] eqn:Hd; [|discriminate].
    destruct (float_lt d DISTANCE_THRESHOLD) eqn:Hlt.
    + destruct (IH _ _ _ _ _ _ Hrun Hs) as [Hin|(j & d' & Hj & Hd' & Hlt' & ->)].
      * apply elem_of_app in Hin as [Hin|Hin]; [left; exact Hin|].
        apply list_elem_of_singleton in Hin as ->.
        right. exists i, d. simpl. repeat split; try assumption; lia.
      * right. exists j, d'. simpl. repeat split; try assumption; lia.
    + destruct (IH _ _ _ _ _ _ Hrun Hs) as [Hin|(j & d' & Hj & Hd' & Hlt' & ->)].
      * left. exact Hin.
      * right. exists j, d'. simpl. repeat split; try assumption; lia.
Qed.

(** Labels and contexts already collected are kept. *)
Lemma filter_loop_keeps docs : forall i ctx src ctx' src',
  filter_loop i docs metas dists ctx src = PyOk (ctx', src') ->
  (forall s, s ∈ src -> s ∈ src') /\ (ctx <> [] -> ctx' <> []).
Proof.
  induction docs as [|doc rest IH]; intros i ctx src ctx' src' Hrun;
    cbn [filter_loop] in Hrun.
  - injection Hrun as <- <-. auto.
  - destruct (dists !! i) as [d|]; [|discriminate].
    destruct (float_lt d DISTANCE_THRESHOLD).
    + destruct (IH _ _ _ _ _ Hrun) as [Hsrc Hctx]. split.
      * intros s Hs. apply Hsrc, elem_of_app. left. exact Hs.
      * intros _. apply Hctx. destruct ctx; discriminate.
    + apply (IH _ _ _ _ _ Hrun).
Qed.

(** Every index in range whose distance is below the threshold has its
    label in the result, and then the contexts are not empty. *)
Lemma filter_loop_complete docs : forall i ctx src ctx' src' j d,
  filter_loop i docs metas dists ctx src = PyOk (ctx', src') ->
  (i <= j < i + length docs)%nat -> dists !! j = Some d ->
  float_lt d DISTANCE_THRESHOLD = true ->
  label j ∈ src' /\ ctx' <> [].
Proof.
  induction docs as [|doc rest IH]; intros i ctx src ctx' src' j d Hrun Hj Hd Hlt;
    cbn [filter_loop] in Hrun.
  - simpl in Hj. lia.
  - destruct (dists !! i) as [di|] eqn:Hdi; [|discriminate].
    destruct (decide (j = i)) as [->|Hne].
    + rewrite Hd in Hdi. injection Hdi as <-. rewrite Hlt in Hrun.
      destruct (filter_loop_keeps _ _ _ _ _ _ Hrun) as [Hsrc Hctx]. split.
      * apply Hsrc, elem_of_app. right. apply list_elem_of_singleton. reflexivity.
      * apply Hctx. destruct ctx; discriminate.
    + simpl in Hj.
      destruct (float_lt di DISTANCE_THRESHOLD);
        apply (IH _ _ _ _ _ j d Hrun); try assumption; lia.
Qed.

(** When no index in range is below the threshold the loop leaves both
    lists as they were. *)
Lemma filter_loop_none docs : forall i ctx src ctx' src',
  filter_loop i docs metas dists ctx src = PyOk (ctx', src') ->
  (forall j d, (i <= j < i + length docs)%nat -> dists !! j = Some d ->
               float_lt d DISTANCE_THRESHOLD = false) ->
  ctx' = ctx /\ src' = src.
Proof.
  induction docs as [|doc rest IH]; intros i ctx src ctx' src' Hrun Hnone;
    cbn [filter_loop] in Hrun.
  - injection Hrun as <- <-. auto.
  - destruct (dists !! i) as [d|] eqn:Hd; [|discriminate].
    rewrite (Hnone i d) in Hrun; [|simpl; lia|exact Hd].
    apply (IH _ _ _ _ _ Hrun).
    intros j d' Hj. apply Hnone. simpl. lia.
Qed.

End FilterLoop.

(* ===================================================================== *)
(** ** RAGEngine.query *)
(* ===================================================================== *)

Section Query.

Variables (self : RAGEngine) (question : string) (top_k : Z).
Variables (coll : Collection) (results : QueryResult).
Hypothesis Hconnected : collection self = Some coll.
Hypothesis Hsearch : coll question top_k = PyOk results.

Let run := query_run self question top_k.
Let loop :=
  filter_loop 0 (documents results) (metadatas results) (distances results) [] [].

(** The three ways a connected [query] whose search succeeded can end. *)
Lemma query_run_inv :
  (site run = AtException /\ rag_engine.sources (reply run) = [] /\ prompt_handed run = None) \/
  (exists ctx src,
      loop = PyOk (ctx, src) /\
      site run = AtLLMNotLoaded /\ rag_engine.sources (reply run) = src /\
      prompt_handed run = None) \/
  (exists ctx src prompt,
      loop = PyOk (ctx, src) /\
      build_prompt question ctx src = PyOk prompt /\
      prompt_handed run = Some prompt /\
      ((site run = AtException /\ rag_engine.sources (reply run) = []) \/
       (site run = AtAnswer /\
        rag_engine.sources (reply run) = match ctx with [] => [] | _ => list_set src end))).
Proof.
  subst run loop. unfold query_run, debug_search.
  rewrite Hconnected, Hsearch.
  destruct (debug_log 0 _ _); [|left; auto].
  assert (Hloop :
    match documents results with
    | [] => PyOk ([], [])
    | doc :: rest => filter_loop 0 (doc :: rest) (metadatas results)
                       (distances results) [] []
    end =
    filter_loop 0 (documents results) (metadatas results) (distances results) [] []).
  { destruct (documents results); reflexivity. }
  rewrite Hloop. clear Hloop.
  destruct (filter_loop 0 _ _ _ [] []) as [[ctx src]|e]; [|left; auto].
  destruct (build_prompt question ctx src) as [prompt|e] eqn:Hprompt;
    [|left; auto].
  destruct (llm self) as [model|].
  - right. right. exists ctx, src, prompt.
    destruct (model prompt); cbn; auto 8.
  - right. left. exists ctx, src. cbn. auto.
Qed.

(** On every error return other than "LLM not loaded" the sources are
    empty. *)
Lemma query_run_error_sources :
  site run = AtException -> rag_engine.sources (reply run) = [].
Proof.
  destruct query_run_inv as [(_ & H & _)|[(ctx & src & _ & Hsite & _)|
    (ctx & src & p & _ & _ & _ & [(_ & H)|(Hsite & _)])]];
    intros Hs; try assumption; congruence.
Qed.

End Query.

(** [build_prompt] does not raise on lists of equal length. *)
Lemma context_blocks_ok (contexts : list string) : forall i sources,
  (i + length contexts <= length sources)%nat ->
  exists blocks, context_blocks i contexts sources = PyOk blocks.
Proof.
  induction contexts as [|c rest IH]; intros i srcs Hlen; cbn [context_blocks].
  - eauto.
  - simpl in Hlen.
    destruct (lookup_lt_is_Some_2 srcs i ltac:(lia)) as [s ->].
    destruct (IH (S i) srcs ltac:(lia)) as [blocks ->]. eauto.
Qed.

Lemma build_prompt_ok (q : string) (contexts srcs : list string) :
  length contexts = length srcs ->
  exists prompt, build_prompt q contexts srcs = PyOk prompt.
Proof.
  intros Hlen. unfold build_prompt.
  destruct contexts as [|c rest]; [eauto|].
  destruct (context_blocks_ok (c :: rest) 0 srcs ltac:(lia)) as [blocks ->].
  eauto.
Qed.

(** Hence in [query] the prompt is always built once the loop is through. *)
Lemma filter_loop_prompt (q : string) docs metas dists ctx src :
  filter_loop 0 docs metas dists [] [] = PyOk (ctx, src) ->
  exists prompt, build_prompt q ctx src = PyOk prompt.
Proof.
  intros Hloop. apply build_prompt_ok.
  apply (filter_loop_lengths _ _ _ _ _ _ _ _ Hloop). reflexivity.
Qed.

(** The store-not-connected return has no sources. *)
Lemma query_not_connected (self : RAGEngine) (question : string) (top_k : Z) :
  collection self = None ->
  query_run self question top_k =
    {| site := AtNotConnected; prompt_handed := None;
       reply := {| answer := "Error: Not connected to ChromaDB"; rag_engine.sources := [] |} |}.
Proof. unfold query_run. intros ->. reflexivity. Qed.

Lemma elem_of_list_set (s : string) (l : list string) : s ∈ list_set l <-> s ∈ l.
Proof. unfold list_set. rewrite elem_of_elements, elem_of_list_to_set. reflexivity. Qed.

Lemma general_text_in_prompt (q : string) :
  occurs_in general_knowledge_text (prompt_template general_knowledge_text q).
Proof.
  exists ("<s>[INST] You are a helpful AI assistant. Use the following context to answer the question." ++ PyStr.nl ++
          "If the context is not relevant, answer the question using your general knowledge." ++ PyStr.nl ++
          "At the end of your response, only mention the source files if you used the provided context." ++ PyStr.nl ++
          PyStr.nl ++ "Context from documents:" ++ PyStr.nl),
         (PyStr.nl ++ PyStr.nl ++ "Question: " ++ q ++ PyStr.nl ++ PyStr.nl ++
          "Please provide a helpful answer. [/INST]").
  reflexivity.
Qed.

(** C1: in the sources returned by [query], every label was extracted
    from a retrieved passage whose distance is below 0.7; a label carried
    only by passages at distance 0.7 or more is absent; and when [query]
    returns a generated answer, every retrieved passage below 0.7 has its
    label in the returned sources. *)
Theorem relevance_filter (self : RAGEngine) (question : string) (top_k : Z)
    (coll : Collection) (results : QueryResult) :
  collection self = Some coll ->
  coll question top_k = PyOk results ->
  (forall s, s ∈ rag_engine.sources (query self question top_k) ->
     exists i d, retrieved results i d /\
                 float_lt d DISTANCE_THRESHOLD = true /\
                 float_ge d DISTANCE_THRESHOLD = false /\
                 s = source_label results i) /\
  (forall s,
     (forall i d, retrieved results i d -> source_label results i = s ->
                  float_ge d DISTANCE_THRESHOLD = true) ->
     s ∉ rag_engine.sources (query self question top_k)) /\
  (site (query_run self question top_k) = AtAnswer ->
   forall i d, retrieved results i d ->
               float_lt d DISTANCE_THRESHOLD = true ->
               source_label results i ∈ rag_engine.sources (query self question top_k)).
Proof.
  intros Hc Hs. unfold query.
  assert (Hsound : forall s, s ∈ rag_engine.sources (reply (query_run self question top_k)) ->
     exists i d, retrieved results i d /\
                 float_lt d DISTANCE_THRESHOLD = true /\
                 float_ge d DISTANCE_THRESHOLD = false /\
                 s = source_label results i).
  { intros s Hin.
    assert (Hsrc : exists ctx src,
      filter_loop 0 (documents results) (metadatas results) (distances results) [] []
        = PyOk (ctx, src) /\ s ∈ src).
    { destruct (query_run_inv self question top_k coll results Hc Hs)
        as [(_ & H & _)|[(ctx & src & Hl & _ & H & _)|
            (ctx & src & p & Hl & _ & _ & [(_ & H)|(_ & H)])]];
        rewrite H in Hin.
      - inversion Hin.
      - eauto.
      - inversion Hin.
      - destruct ctx; [inversion Hin|].
        rewrite elem_of_list_set in Hin. eauto. }
    destruct Hsrc as (ctx & src & Hl & Hin').
    destruct (filter_loop_sound _ _ _ _ _ _ _ _ s Hl Hin')
      as [Hnil|(j & d & Hj & Hd & Hlt & ->)]; [inversion Hnil|].
    exists j, d. unfold retrieved, source_label.
    repeat split; try assumption; [lia | apply float_lt_not_ge; exact Hlt]. }
  split; [exact Hsound|]. split.
  - intros s Hall Hin.
    destruct (Hsound s Hin) as (i & d & Hr & _ & Hge & ->).
    rewrite (Hall i d Hr eq_refl) in Hge. discriminate.
  - intros Hsite i d [Hi Hd] Hlt.
    destruct (query_run_inv self question top_k coll results Hc Hs)
      as [(H & _)|[(ctx & src & _ & H & _)|
          (ctx & src & p & Hl & _ & _ & [(H & _)|(_ & H)])]];
      try congruence.
    rewrite H.
    destruct (filter_loop_complete _ _ _ _ _ _ _ _ i d Hl ltac:(lia) Hd Hlt)
      as [Hin Hne].
    destruct ctx; [contradiction|].
    apply elem_of_list_set. exact Hin.
Qed.

Lemma relevance_filter_witness :
  "resume.pdf" ∈
    rag_engine.sources (query Sample.ready_engine "What is your CV experience?" 3) /\
  "soup.txt" ∉
    rag_engine.sources (query Sample.ready_engine "What is your CV experience?" 3).
Proof.
  pose proof (relevance_filter Sample.ready_engine "What is your CV experience?" 3
                Sample.store Sample.results eq_refl eq_refl)
    as (_ & Habsent & Hpresent).
  split.
  - apply (Hpresent eq_refl 0%nat Sample.d042).
    + split; [simpl; lia | reflexivity].
    + reflexivity.
  - apply Habsent. intros i d [Hi Hd] Hlabel.
    destruct i as [|[|i]].
    + vm_compute in Hlabel. discriminate Hlabel.
    + injection Hd as <-. reflexivity.
    + simpl in Hi. lia.
Defined.

(** C7: when no retrieved passage passes the distance filter (in
    particular when the search returned no documents), [query] returns no
    sources, and the prompt handed to the model is the template filled with
    the general-knowledge instruction in place of any passage listing. *)
Theorem no_relevant_passage (self : RAGEngine) (question : string) (top_k : Z)
    (coll : Collection) (results : QueryResult) :
  collection self = Some coll ->
  coll question top_k = PyOk results ->
  none_passes results ->
  rag_engine.sources (query self question top_k) = [] /\
  (forall p, prompt_handed (query_run self question top_k) = Some p ->
     p = prompt_template general_knowledge_text question /\
     occurs_in general_knowledge_text p) /\
  (site (query_run self question top_k) = AtAnswer ->
   prompt_handed (query_run self question top_k) =
     Some (prompt_template general_knowledge_text question)).
Proof.
  intros Hc Hs Hnone. unfold query.
  assert (Hloop : forall ctx src,
    filter_loop 0 (documents results) (metadatas results) (distances results) [] []
      = PyOk (ctx, src) -> ctx = [] /\ src = []).
  { intros ctx src Hl.
    apply (filter_loop_none _ _ _ _ _ _ _ _ Hl).
    intros j d Hj Hd. apply (Hnone j d). split; [lia | exact Hd]. }
  destruct (query_run_inv self question top_k coll results Hc Hs)
    as [(Hsite & Hsrc & Hp)|[(ctx & src & Hl & Hsite & Hsrc & Hp)|
        (ctx & src & p & Hl & Hb & Hp & Hend)]].
  - rewrite Hsrc, Hp, Hsite. repeat split; congruence.
  - destruct (Hloop _ _ Hl) as [-> ->].
    rewrite Hsrc, Hp, Hsite. repeat split; congruence.
  - destruct (Hloop _ _ Hl) as [-> ->].
    cbn [build_prompt] in Hb. injection Hb as <-.
    rewrite Hp. split; [|split].
    + destruct Hend as [(_ & H)|(_ & H)]; exact H.
    + intros p' [= <-]. split; [reflexivity | apply general_text_in_prompt].
    + reflexivity.
Qed.

Lemma no_relevant_passage_witness :
  rag_engine.sources (query Sample.far_engine "What is your CV experience?" 3) = [] /\
  prompt_handed (query_run Sample.far_engine "What is your CV experience?" 3) =
    Some (prompt_template general_knowledge_text "What is your CV experience?").
Proof.
  assert (Hnone : none_passes Sample.far_results).
  { intros i d [Hi Hd]. destruct i as [|i]; [|simpl in Hi; lia].
    injection Hd as <-. reflexivity. }
  destruct (no_relevant_passage Sample.far_engine "What is your CV experience?" 3
              Sample.far_store Sample.far_results eq_refl eq_refl Hnone)
    as (Hsources & _ & Hprompt).
  split; [exact Hsources | apply Hprompt; reflexivity].
Defined.

(** C3: with the store connected and no model loaded, [query] answers
    with the error text "Error: LLM not loaded" and still returns the
    label of the accepted passage. *)
Theorem query_llm_not_loaded_sources :
  query_run Sample.no_llm_engine "What is your CV experience?" 3 =
    {| site := AtLLMNotLoaded; prompt_handed := None;
       reply := {| answer := "Error: LLM not loaded";
                   rag_engine.sources := ["resume.pdf"] |} |}.
Proof. vm_compute. reflexivity. Qed.

(* ===================================================================== *)
(** ** chat_endpoint *)
(* ===================================================================== *)

Section Chat.

Variables (env : RequestEnv) (srv : Server) (request : ChatRequest).

Let sid := target_session_id env srv request.
Let fresh := needs_new_session (chat_sessions srv) (session_id request).
Let should_search :=
  search_documents request && needs_document_search (message request).

(** The two ways [chat_endpoint] ends: a raise after the user message
    was appended (500), or the full turn (200). *)
Lemma chat_endpoint_inv :
  exists s0, base_session env srv request s0 /\
    ((exists ex engine1,
        answer_request env (engine srv) request should_search
          = (engine1, PyRaise ex) /\
        chat_endpoint env srv request =
          ({| chat_sessions := after_user env srv request s0; persisted := persisted srv;
              engine := engine1 |},
           HttpError 500 (exn_str ex))) \/
     (exists answer srcs engine1,
        answer_request env (engine srv) request should_search
          = (engine1, PyOk (answer, srcs)) /\
        chat_endpoint env srv request =
          (let sessions3 :=
             <[sid := after_assistant env request s0 answer srcs]>
               (after_user env srv request s0) in
           {| chat_sessions := sessions3;
              persisted := save_sessions env sessions3 (persisted srv);
              engine := engine1 |},
           Http200 {| reply_session_id := sid; reply_message := answer;
                      reply_sources := srcs;
                      history := messages (after_assistant env request s0 answer srcs) |}))).
Proof.
  unfold chat_endpoint, base_session, after_user, after_assistant,
    assistant_message, should_search_of.
  fold sid. fold fresh. fold should_search.
  assert (Hbase : exists s0,
    (if fresh then <[sid := new_session env request sid]> (chat_sessions srv)
     else chat_sessions srv) !! sid = Some s0 /\
    (if fresh then s0 = new_session env request (uuid4 env)
     else session_id request = Some sid /\ chat_sessions srv !! sid = Some s0)).
  { subst sid fresh. unfold target_session_id, needs_new_session.
    destruct (session_id request) as [sid'|]; cbn.
    - destruct (String.eqb sid' ""); cbn.
      + eexists. rewrite lookup_insert_eq. split; reflexivity.
      + destruct (bool_decide_reflect (is_Some (chat_sessions srv !! sid')))
          as [[s0 Hs0]|Hno]; cbn.
        * exists s0. auto.
        * eexists. rewrite lookup_insert_eq. split; reflexivity.
    - eexists. rewrite lookup_insert_eq. split; reflexivity. }
  destruct Hbase as (s0 & Hlook & Hs0).
  exists s0. split; [exact Hs0|].
  rewrite Hlook.
  assert (Hsessions0 :
    (if fresh then <[sid := new_session env request sid]> (chat_sessions srv)
     else chat_sessions srv) =
    (if fresh then <[sid := s0]> (chat_sessions srv) else chat_sessions srv)).
  { destruct fresh eqn:Hf; [|reflexivity].
    rewrite Hs0. subst sid. unfold target_session_id.
    fold fresh. rewrite Hf. reflexivity. }
  rewrite Hsessions0.
  destruct (answer_request env (engine srv) request should_search)
    as [engine1 [[answer srcs]|ex]].
  - right. exists answer, srcs, engine1. split; reflexivity.
  - left. exists ex, engine1. split; reflexivity.
Qed.

Lemma after_user_lookup s0 :
  after_user env srv request s0 !! sid =
    Some (append_message (user_message env request) s0).
Proof. unfold after_user. apply lookup_insert_eq. Qed.

Lemma after_user_other s0 other :
  other <> sid ->
  after_user env srv request s0 !! other = chat_sessions srv !! other.
Proof.
  intros Hne. unfold after_user. fold sid. fold fresh.
  rewrite lookup_insert_ne by congruence.
  destruct fresh; [|reflexivity].
  apply lookup_insert_ne. congruence.
Qed.

(** Under a new uuid the target session had no messages before. *)
Lemma base_session_messages s0 :
  chat_sessions srv !! uuid4 env = None ->
  base_session env srv request s0 -> messages_of srv sid = messages s0.
Proof.
  intros Hnew. unfold base_session, messages_of. subst sid fresh.
  unfold target_session_id.
  destruct (needs_new_session _ _).
  - intros ->. rewrite Hnew. reflexivity.
  - intros [_ ->]. reflexivity.
Qed.

End Chat.

(** C5: provided the generated uuid is not already a stored session id,
    no session's message list gets shorter under [chat_endpoint], and a
    200 response means the session it names gained exactly two messages,
    a user message followed by an assistant message. *)
Theorem chat_messages_grow (env : RequestEnv) (srv : Server) (request : ChatRequest) :
  chat_sessions srv !! uuid4 env = None ->
  (forall sid,
     (length (messages_of srv sid) <=
      length (messages_of (fst (chat_endpoint env srv request)) sid))%nat) /\
  (forall body,
     snd (chat_endpoint env srv request) = Http200 body ->
     exists user assistant,
       role user = "user" /\ role assistant = "assistant" /\
       messages_of (fst (chat_endpoint env srv request)) (reply_session_id body) =
         (messages_of srv (reply_session_id body) ++ [user; assistant])%list /\
       length (messages_of (fst (chat_endpoint env srv request)) (reply_session_id body)) =
         (length (messages_of srv (reply_session_id body)) + 2)%nat).
Proof.
  intros Hnew.
  destruct (chat_endpoint_inv env srv request)
    as (s0 & Hb & [(ex & e1 & _ & ->)|(answer & srcs & e1 & _ & ->)]);
    pose proof (base_session_messages env srv request s0 Hnew Hb) as Hold;
    cbn [fst snd]; split.
  - intros sid. destruct (decide (sid = target_session_id env srv request)) as [->|Hne].
    + rewrite Hold. unfold messages_of. cbn [chat_sessions].
      rewrite after_user_lookup. cbn. rewrite length_app. lia.
    + unfold messages_of. cbn [chat_sessions].
      rewrite after_user_other by exact Hne. lia.
  - intros body [=].
  - intros sid. destruct (decide (sid = target_session_id env srv request)) as [->|Hne].
    + rewrite Hold. unfold messages_of. cbn [chat_sessions].
      rewrite lookup_insert_eq. cbn. rewrite !length_app. lia.
    + unfold messages_of. cbn [chat_sessions].
      rewrite lookup_insert_ne by congruence.
      rewrite after_user_other by exact Hne. lia.
  - intros body [= <-]. cbn [reply_session_id].
    exists (user_message env request), (assistant_message env request answer srcs).
    rewrite Hold. unfold messages_of. cbn [chat_sessions].
    rewrite lookup_insert_eq. cbn.
    rewrite <- app_assoc. cbn. rewrite length_app. cbn.
    repeat split; lia.
Qed.

Lemma chat_messages_grow_witness :
  length (messages_of
            (fst (chat_endpoint Sample.env (Sample.server Sample.ready_engine)
                    Sample.cv_request)) "u1") = 2%nat /\
  (length (messages_of (Sample.server Sample.ready_engine) "s1") <=
   length (messages_of
             (fst (chat_endpoint Sample.env (Sample.server Sample.ready_engine)
                     Sample.cv_request)) "s1"))%nat.
Proof.
  destruct (chat_messages_grow Sample.env (Sample.server Sample.ready_engine)
              Sample.cv_request eq_refl) as [Hle Hok].
  split.
  - destruct (Hok Sample.cv_reply eq_refl) as (u & a & _ & _ & _ & Hlen).
    exact Hlen.
  - apply Hle.
Defined.

(** C8: after a 200 response the session ends with the user message and
    the assistant message; the assistant message carries [search_used]
    equal to [search_documents and needs_document_search(message)], and
    when that is false the answer is the one of [direct_response] and the
    sources are empty, whatever [search_documents] was. *)
Theorem chat_search_used (env : RequestEnv) (srv : Server) (request : ChatRequest)
    (body : ChatReply) :
  snd (chat_endpoint env srv request) = Http200 body ->
  exists earlier user assistant,
    messages_of (fst (chat_endpoint env srv request)) (reply_session_id body) =
      (earlier ++ [user; assistant])%list /\
    history body = (earlier ++ [user; assistant])%list /\
    role assistant = "assistant" /\
    search_used assistant =
      search_documents request && needs_document_search (message request) /\
    (search_documents request && needs_document_search (message request) = false ->
     backend_app.sources assistant = [] /\ reply_sources body = [] /\
     direct_response (connect_env env) (engine srv) (message request) =
       (engine (fst (chat_endpoint env srv request)), PyOk (content assistant))).
Proof.
  destruct (chat_endpoint_inv env srv request)
    as (s0 & Hb & [(ex & e1 & _ & ->)|(answer & srcs & e1 & Ha & ->)]);
    cbn [fst snd]; intros [= <-].
  exists (messages s0), (user_message env request),
    (assistant_message env request answer srcs).
  cbn [reply_session_id history reply_sources engine].
  unfold messages_of. cbn [chat_sessions]. rewrite lookup_insert_eq.
  cbv beta iota.
  assert (Hm : messages (after_assistant env request s0 answer srcs) =
               (messages s0 ++ [user_message env request;
                                assistant_message env request answer srcs])%list).
  { unfold after_assistant, finish_session, append_message. cbn [messages].
    rewrite <- app_assoc. reflexivity. }
  rewrite Hm. split; [reflexivity|].
  split; [rewrite <- app_assoc; reflexivity|].
  do 2 (split; [reflexivity|]).
  intros Hno. rewrite Hno in Ha. unfold answer_request in Ha.
  destruct (direct_response (connect_env env) (engine srv) (message request))
    as [e [a|ex]]; [|discriminate].
  injection Ha as <- <- <-. repeat split.
Qed.

Lemma chat_search_used_witness :
  exists earlier user assistant,
    history Sample.weather_reply = (earlier ++ [user; assistant])%list /\
    search_used assistant = false /\
    backend_app.sources assistant = [] /\
    reply_sources Sample.weather_reply = [].
Proof.
  destruct (chat_search_used Sample.env (Sample.server Sample.ready_engine)
              Sample.weather_request Sample.weather_reply eq_refl)
    as (earlier & u & a & _ & Hhistory & _ & Hused & Hdirect).
  destruct (Hdirect eq_refl) as (Hsources & Hreply & _).
  exists earlier, u, a. repeat split; assumption.
Defined.

(** C10: when [chat_endpoint] fails, the response is a 500, the file is
    not rewritten, and the target session is left in memory with the user
    message appended as its last message and [updated_at] as it was; the
    other sessions are untouched. *)
Theorem chat_error_not_atomic (env : RequestEnv) (srv : Server) (request : ChatRequest)
    (status : nat) (detail : string) :
  snd (chat_endpoint env srv request) = HttpError status detail ->
  status = 500%nat /\
  persisted (fst (chat_endpoint env srv request)) = persisted srv /\
  (exists s0 s1,
     base_session env srv request s0 /\
     chat_sessions (fst (chat_endpoint env srv request))
       !! target_session_id env srv request = Some s1 /\
     messages s1 = (messages s0 ++ [user_message env request])%list /\
     role (user_message env request) = "user" /\
     updated_at s1 = updated_at s0) /\
  (forall other, other <> target_session_id env srv request ->
     chat_sessions (fst (chat_endpoint env srv request)) !! other =
       chat_sessions srv !! other).
Proof.
  destruct (chat_endpoint_inv env srv request)
    as (s0 & Hb & [(ex & e1 & _ & ->)|(answer & srcs & e1 & _ & ->)]);
    cbn [fst snd]; intros [= <- <-].
  cbn [persisted chat_sessions]. repeat split.
  - exists s0, (append_message (user_message env request) s0).
    rewrite after_user_lookup. repeat split. exact Hb.
  - intros other Hne. apply after_user_other. exact Hne.
Qed.

Lemma chat_error_not_atomic_witness :
  persisted (fst (chat_endpoint Sample.env (Sample.server Sample.failing_engine)
                    Sample.weather_request)) = None /\
  exists s1,
    chat_sessions (fst (chat_endpoint Sample.env (Sample.server Sample.failing_engine)
                          Sample.weather_request)) !! "s1" = Some s1 /\
    messages s1 = [user_message Sample.env Sample.weather_request] /\
    updated_at s1 = "t0".
Proof.
  destruct (chat_error_not_atomic Sample.env (Sample.server Sample.failing_engine)
              Sample.weather_request 500 "Requested tokens exceed context window"
              eq_refl)
    as (_ & Hfile & (s0 & s1 & Hbase & Hlook & Hmsgs & _ & Hupd) & _).
  split; [exact Hfile|].
  exists s1. vm_compute in Hbase. destruct Hbase as [_ Hs0].
  injection Hs0 as <-.
  repeat split; assumption.
Defined.

(** C2: a model that raises during generation is turned into an error
    answer on the retrieval path, but on the direct path the exception
    leaves [direct_response] and [chat_endpoint] answers 500. *)
Theorem direct_response_exception_is_500 :
  snd (direct_response (connect_env Sample.env) Sample.failing_engine
         (message Sample.weather_request)) =
    PyRaise (PyExn "ValueError" "Requested tokens exceed context window") /\
  snd (chat_endpoint Sample.env (Sample.server Sample.failing_engine)
         Sample.weather_request) =
    HttpError 500 "Requested tokens exceed context window" /\
  query Sample.failing_engine (message Sample.cv_request) 3 =
    {| answer := "Error processing your question: Requested tokens exceed context window";
       rag_engine.sources := [] |}.
Proof. vm_compute. repeat split. Qed.

(* ===================================================================== *)
(** ** Further properties: source labels *)
(* ===================================================================== *)

Section Labels.

Lemma prefix_slash (c : ascii) (p : string) :
  String.prefix "/" (String c p) = Ascii.eqb c "/"%char.
Proof.
  cbn [String.prefix].
  destruct (ascii_dec "/" c) as [<-|Hne].
  - destruct p; reflexivity.
  - symmetry. apply Ascii.eqb_neq. congruence.
Qed.

Lemma after_last_slash_clean (p : string) :
  PyStr.contains "/" (PyStr.after_last_slash p) = false.
Proof.
  induction p as [|c p IH]; [reflexivity|].
  cbn [PyStr.after_last_slash].
  destruct (PyStr.contains "/" p) eqn:Hp; [exact IH|].
  destruct (Ascii.eqb c "/") eqn:Hc; [exact Hp|].
  cbn [PyStr.contains]. rewrite prefix_slash, Hc, Hp. reflexivity.
Qed.

Lemma first_present_key_clean (keys : list string) (md : gmap string meta_value) :
  PyStr.contains "/" (first_present_key keys md) = false.
Proof.
  induction keys as [|k rest IH]; cbn [first_present_key]; [reflexivity|].
  destruct (md !! k); [apply after_last_slash_clean | exact IH].
Qed.

End Labels.

(** X1: the label is taken from the first of the keys [filename],
    [source], [_source_file] that the metadata has, as the base name of
    its value; metadata with none of them gives "Unknown source". *)
Theorem extract_filename_priority (md : gmap string meta_value) :
  (forall v, md !! "filename" = Some v ->
     extract_filename_from_metadata (Some md) = PyStr.basename (py_str v)) /\
  (forall v, md !! "filename" = None -> md !! "source" = Some v ->
     extract_filename_from_metadata (Some md) = PyStr.basename (py_str v)) /\
  (forall v, md !! "filename" = None -> md !! "source" = None ->
     md !! "_source_file" = Some v ->
     extract_filename_from_metadata (Some md) = PyStr.basename (py_str v)) /\
  (md !! "filename" = None -> md !! "source" = None ->
   md !! "_source_file" = None ->
   extract_filename_from_metadata (Some md) = "Unknown source").
Proof.
  unfold extract_filename_from_metadata, possible_keys.
  repeat split; intros;
    (destruct (bool_decide_reflect (md = ∅)) as [->|_];
     [rewrite ?lookup_empty in *; try discriminate; reflexivity|]);
    cbn [first_present_key];
    repeat match goal with H : md !! _ = _ |- _ => rewrite H; clear H end;
    reflexivity.
Qed.

Lemma extract_filename_priority_witness :
  extract_filename_from_metadata
    (Some {[ "source" := MStr "notes/a.txt"; "filename" := MStr "/docs/resume.pdf" ]})
    = "resume.pdf" /\
  extract_filename_from_metadata (Some {[ "page" := MInt 3 ]}) = "Unknown source".
Proof.
  split.
  - apply (proj1 (extract_filename_priority
                    {[ "source" := MStr "notes/a.txt";
                       "filename" := MStr "/docs/resume.pdf" ]})
             (MStr "/docs/resume.pdf")).
    reflexivity.
  - apply (proj2 (proj2 (proj2 (extract_filename_priority {[ "page" := MInt 3 ]}))));
      reflexivity.
Defined.

(** X2: a source label never contains a slash: directory parts of the
    stored path are always cut off. *)
Theorem source_label_no_slash (metadata : option (gmap string meta_value)) :
  PyStr.contains "/" (extract_filename_from_metadata metadata) = false.
Proof.
  unfold extract_filename_from_metadata.
  destruct metadata as [md|]; [|reflexivity].
  destruct (bool_decide (md = ∅)); [reflexivity|].
  apply first_present_key_clean.
Qed.

(* ===================================================================== *)
(** ** Further properties: the filter loop and the prompt *)
(* ===================================================================== *)

Section LoopExact.

Variables (docs : list string)
          (metas : list (option (gmap string meta_value)))
          (dists : list spec_float).

Let results := {| documents := docs; metadatas := metas; distances := dists |}.

Let accepts (i : nat) : bool :=
  match dists !! i with
  | Some d => float_lt d DISTANCE_THRESHOLD
  | None => false
  end.

(** The loop over the documents that follow [pre], in closed form. *)
Lemma filter_loop_from (rest : list string) : forall pre ctx src ctx' src',
  docs = (pre ++ rest)%list ->
  filter_loop (length pre) rest metas dists ctx src = PyOk (ctx', src') ->
  ctx' = (ctx ++ map (context_at results)
                   (List.filter accepts (seq (length pre) (length rest))))%list /\
  src' = (src ++ map (source_label results)
                   (List.filter accepts (seq (length pre) (length rest))))%list.
Proof.
  induction rest as [|doc rest IH]; intros pre ctx src ctx' src' Hdocs Hrun;
    cbn [filter_loop] in Hrun.
  - injection Hrun as <- <-. cbn. rewrite !app_nil_r. auto.
  - cbn [length seq List.filter].
    destruct (dists !! length pre) as [d|] eqn:Hd; [|discriminate].
    assert (Hdoc : docs !! length pre = Some doc).
    { rewrite Hdocs. apply list_lookup_middle. reflexivity. }
    assert (Hnext : docs = ((pre ++ [doc]) ++ rest)%list).
    { rewrite <- app_assoc. exact Hdocs. }
    assert (Hlen : length (pre ++ [doc]) = S (length pre)).
    { rewrite length_app. cbn. lia. }
    specialize (IH (pre ++ [doc])%list). rewrite Hlen in IH.
    assert (Hacc : accepts (length pre) = float_lt d DISTANCE_THRESHOLD).
    { unfold accepts. rewrite Hd. reflexivity. }
    rewrite Hacc.
    destruct (float_lt d DISTANCE_THRESHOLD).
    + apply IH in Hrun; [|exact Hnext].
      destruct Hrun as [-> ->]. cbn [map].
      rewrite <- !app_assoc. cbn [app].
      assert (Hctx : context_at results (length pre) = PyStr.take 1000 doc).
      { unfold context_at. subst results. cbn [documents].
        rewrite Hdoc. reflexivity. }
      rewrite Hctx. split; reflexivity.
    + apply IH in Hrun; [exact Hrun | exact Hnext].
Qed.

Lemma filter_loop_bounds (rest : list string) : forall i ctx src,
  ((i + length rest <= length dists)%nat ->
     exists r, filter_loop i rest metas dists ctx src = PyOk r) /\
  ((i <= length dists < i + length rest)%nat ->
     filter_loop i rest metas dists ctx src = PyRaise IndexError).
Proof.
  induction rest as [|doc rest IH]; intros i ctx src; cbn [filter_loop length].
  - split; [eauto | lia].
  - split; intros Hlen.
    + destruct (lookup_lt_is_Some_2 dists i ltac:(lia)) as [d ->].
      destruct (float_lt d DISTANCE_THRESHOLD);
        apply (proj1 (IH (S i) _ _)); lia.
    + destruct (dists !! i) as [d|] eqn:Hd; [|reflexivity].
      apply lookup_lt_Some in Hd.
      destruct (float_lt d DISTANCE_THRESHOLD);
        apply (proj2 (IH (S i) _ _)); lia.
Qed.

End LoopExact.

Section QuerySteps.

Variables (self : RAGEngine) (question : string) (top_k : Z).
Variables (coll : Collection) (results : QueryResult).
Hypothesis Hconnected : collection self = Some coll.
Hypothesis Hsearch : coll question top_k = PyOk results.

(** [query] after a successful search, step by step. *)
Lemma query_run_steps :
  query_run self question top_k =
  match debug_log 0 (zip (documents results) (metadatas results))
          (distances results) with
  | PyRaise e => on_exception None e
  | PyOk _ =>
      match filter_loop 0 (documents results) (metadatas results)
              (distances results) [] [] with
      | PyRaise e => on_exception None e
      | PyOk (contexts, srcs) =>
          match build_prompt question contexts srcs with
          | PyRaise e => on_exception None e
          | PyOk prompt =>
              match llm self with
              | None =>
                  {| site := AtLLMNotLoaded; prompt_handed := None;
                     reply := {| answer := "Error: LLM not loaded";
                                 rag_engine.sources := srcs |} |}
              | Some model =>
                  match model prompt with
                  | PyRaise e => on_exception (Some prompt) e
                  | PyOk text =>
                      {| site := AtAnswer; prompt_handed := Some prompt;
                         reply := {| answer := PyStr.strip text;
                                     rag_engine.sources :=
                                       match contexts with
                                       | [] => []
                                       | _ => list_set srcs
                                       end |} |}
                  end
              end
          end
      end
  end.
Proof.
  unfold query_run, debug_search. rewrite Hconnected, Hsearch.
  destruct (debug_log 0 _ _); [|reflexivity].
  destruct (documents results) eqn:Hdocs; reflexivity.
Qed.

End QuerySteps.

Section DebugLog.

Variable dists : list spec_float.

(** The logging loop raises as soon as a paired metadata entry is [None]
    or a distance is missing. *)
Lemma debug_log_ok pairs : forall i,
  (forall j p, pairs !! j = Some p ->
     snd p <> None /\ is_Some (dists !! (i + j)%nat)) ->
  debug_log i pairs dists = PyOk tt.
Proof.
  induction pairs as [|[doc m] rest IH]; intros i Hall; cbn [debug_log];
    [reflexivity|].
  destruct (Hall 0%nat (doc, m) eq_refl) as [Hm [d Hd]].
  rewrite Nat.add_0_r in Hd. cbn in Hm.
  destruct m as [md|]; [|contradiction]. rewrite Hd.
  apply IH. intros j p Hp.
  replace (S i + j)%nat with (i + S j)%nat by lia.
  apply (Hall (S j) p Hp).
Qed.

Lemma debug_log_raises pairs : forall i j p,
  pairs !! j = Some p ->
  snd p = None \/ dists !! (i + j)%nat = None ->
  exists e, debug_log i pairs dists = PyRaise e.
Proof.
  induction pairs as [|[doc m] rest IH]; intros i j p Hp Hbad;
    cbn [debug_log]; [discriminate|].
  destruct m as [md|]; [|eauto].
  destruct (dists !! i) as [d|] eqn:Hd; [|eauto].
  destruct j as [|j].
  - injection Hp as <-. cbn in Hbad. rewrite Nat.add_0_r in Hbad.
    destruct Hbad; congruence.
  - apply (IH (S i) j p Hp).
    replace (S i + j)%nat with (i + S j)%nat by lia. exact Hbad.
Qed.

End DebugLog.

Lemma passing_loop (results : QueryResult) ctx src :
  filter_loop 0 (documents results) (metadatas results) (distances results) [] []
    = PyOk (ctx, src) ->
  ctx = map (context_at results) (passing results) /\
  src = labels_at results (passing results).
Proof.
  intros Hrun. destruct results as [docs metas dists]. cbn in Hrun.
  apply (filter_loop_from docs metas dists docs [] [] [] _ _ eq_refl Hrun).
Qed.

Lemma filter_loop_total (results : QueryResult) :
  ((length (documents results) <= length (distances results))%nat ->
     filter_loop 0 (documents results) (metadatas results) (distances results) [] []
       = PyOk (map (context_at results) (passing results),
               labels_at results (passing results))) /\
  ((length (distances results) < length (documents results))%nat ->
     filter_loop 0 (documents results) (metadatas results) (distances results) [] []
       = PyRaise IndexError).
Proof.
  split; intros Hlen.
  - destruct (proj1 (filter_loop_bounds (metadatas results) (distances results)
                       (documents results) 0 [] []) Hlen) as [[ctx src] Hrun].
    rewrite Hrun. destruct (passing_loop results ctx src Hrun) as [-> ->].
    reflexivity.
  - apply (proj2 (filter_loop_bounds (metadatas results) (distances results)
                    (documents results) 0 [] [])). lia.
Qed.

(** X3: the filter loop, in closed form.  With a distance for every
    document it returns the truncated texts and the labels of exactly the
    passages below the threshold, in retrieval order and with repetitions;
    with fewer distances than documents it raises IndexError. *)
Theorem filter_loop_closed_form (results : QueryResult) :
  ((length (documents results) <= length (distances results))%nat ->
     filter_loop 0 (documents results) (metadatas results) (distances results) [] []
       = PyOk (map (context_at results) (passing results),
               labels_at results (passing results))) /\
  ((length (distances results) < length (documents results))%nat ->
     filter_loop 0 (documents results) (metadatas results) (distances results) [] []
       = PyRaise IndexError).
Proof. exact (filter_loop_total results). Qed.

Lemma filter_loop_closed_form_witness :
  filter_loop 0 (documents Sample.results) (metadatas Sample.results)
    (distances Sample.results) [] []
    = PyOk (["Manoj led the cloud migration."], ["resume.pdf"]) /\
  filter_loop 0 ["a"; "b"] [] [Sample.d042] [] [] = PyRaise IndexError.
Proof.
  split.
  - apply (proj1 (filter_loop_closed_form Sample.results)). simpl. lia.
  - apply (proj2 (filter_loop_closed_form
                    {| documents := ["a"; "b"]; metadatas := [];
                       distances := [Sample.d042] |})).
    simpl. lia.
Defined.

(** X4: when the store's answer is malformed (fewer distances than
    documents, or a [None] metadata entry paired with a document), [query]
    returns the error text with no sources and never calls the model. *)
Theorem query_malformed_results (self : RAGEngine) (question : string) (top_k : Z)
    (coll : Collection) (results : QueryResult) :
  collection self = Some coll ->
  coll question top_k = PyOk results ->
  (length (distances results) < length (documents results))%nat \/
  (exists i, (i < length (documents results))%nat /\
             metadatas results !! i = Some None) ->
  site (query_run self question top_k) = AtException /\
  rag_engine.sources (query self question top_k) = [] /\
  prompt_handed (query_run self question top_k) = None.
Proof.
  intros Hc Hs Hbad. unfold query.
  rewrite (query_run_steps self question top_k coll results Hc Hs).
  destruct (debug_log 0 _ _) as [[]|e] eqn:Hlog; [|auto].
  destruct Hbad as [Hlen|(i & Hi & Hnone)].
  - rewrite (proj2 (filter_loop_total results) Hlen). auto.
  - destruct (lookup_lt_is_Some_2 (documents results) i Hi) as [doc Hdoc].
    destruct (debug_log_raises (distances results)
                (zip (documents results) (metadatas results)) 0 i (doc, None))
      as [e He].
    + apply lookup_zip_with_Some. eauto.
    + left. reflexivity.
    + congruence.
Qed.

Lemma query_malformed_results_witness :
  site (query_run Sample.bare_engine "What is your CV experience?" 3) = AtException /\
  rag_engine.sources (query Sample.bare_engine "What is your CV experience?" 3) = [] /\
  prompt_handed (query_run Sample.bare_engine "What is your CV experience?" 3) = None.
Proof.
  apply (query_malformed_results Sample.bare_engine "What is your CV experience?" 3
           Sample.bare_store Sample.bare_results eq_refl eq_refl).
  right. exists 1%nat. split; [simpl; lia | reflexivity].
Defined.

(** X5: when the store's answer is well formed and the loaded model
    returns a text, [query] hands the model a prompt and returns the
    stripped text, with the distinct labels of the passing passages as
    sources. *)
Theorem query_answers_when_healthy (self : RAGEngine) (question : string)
    (top_k : Z) (coll : Collection) (results : QueryResult) (model : Llama) :
  collection self = Some coll ->
  coll question top_k = PyOk results ->
  well_formed results ->
  llm self = Some model ->
  (forall p, exists text, model p = PyOk text) ->
  exists prompt text,
    build_prompt question (map (context_at results) (passing results))
      (labels_at results (passing results)) = PyOk prompt /\
    model prompt = PyOk text /\
    query_run self question top_k =
      {| site := AtAnswer; prompt_handed := Some prompt;
         reply := {| answer := PyStr.strip text;
                     rag_engine.sources :=
                       match passing results with
                       | [] => []
                       | _ => list_set (labels_at results (passing results))
                       end |} |}.
Proof.
  intros Hc Hs [Hlen Hmeta] Hllm Hmodel.
  rewrite (query_run_steps self question top_k coll results Hc Hs).
  rewrite debug_log_ok.
  2:{ intros j [doc m] Hp. apply lookup_zip_with_Some in Hp
        as (doc' & m' & [= <- <-] & Hdoc & Hm).
      apply lookup_lt_Some in Hdoc as Hj. cbn. split.
      - intros ->. exact (Hmeta j Hj Hm).
      - apply lookup_lt_is_Some_2. lia. }
  rewrite (proj1 (filter_loop_total results) Hlen).
  destruct (build_prompt_ok question (map (context_at results) (passing results))
              (labels_at results (passing results))) as [prompt Hprompt].
  { unfold labels_at. rewrite !length_map. reflexivity. }
  rewrite Hprompt, Hllm.
  destruct (Hmodel prompt) as [text Htext]. rewrite Htext.
  exists prompt, text. repeat split; try assumption.
  destruct (passing results); reflexivity.
Qed.

Lemma query_answers_when_healthy_witness :
  exists prompt text,
    Sample.model prompt = PyOk text /\
    query Sample.ready_engine "What is your CV experience?" 3 =
      {| answer := PyStr.strip text; rag_engine.sources := ["resume.pdf"] |}.
Proof.
  destruct (query_answers_when_healthy Sample.ready_engine
              "What is your CV experience?" 3 Sample.store Sample.results
              Sample.model eq_refl eq_refl)
    as (prompt & text & _ & Htext & Hrun).
  - split; [simpl; lia|].
    intros i Hi. destruct i as [|[|i]]; simpl; discriminate.
  - reflexivity.
  - intros p. exists " See the resume. ". reflexivity.
  - exists prompt, text. split; [exact Htext|].
    unfold query. rewrite Hrun. reflexivity.
Defined.

(** X6: except on the "LLM not loaded" return, the sources returned by
    [query] contain no label twice. *)
Theorem query_sources_distinct (self : RAGEngine) (question : string) (top_k : Z) :
  site (query_run self question top_k) <> AtLLMNotLoaded ->
  NoDup (rag_engine.sources (query self question top_k)).
Proof.
  unfold query. intros Hsite.
  destruct (collection self) as [coll|] eqn:Hc.
  - destruct (coll question top_k) as [results|e] eqn:Hs.
    + revert Hsite.
      rewrite (query_run_steps self question top_k coll results Hc Hs).
      destruct (debug_log 0 _ _); [|intros; constructor].
      destruct (filter_loop 0 _ _ _ [] []) as [[ctx src]|]; [|intros; constructor].
      destruct (build_prompt question ctx src) as [prompt|];
        [|intros; constructor].
      destruct (llm self) as [model|]; [|cbn; congruence].
      destruct (model prompt); intros _; cbn; [|apply NoDup_nil_2].
      destruct ctx; [apply NoDup_nil_2 | unfold list_set; apply NoDup_elements].
    + unfold query_run, debug_search. rewrite Hc, Hs. constructor.
  - unfold query_run. rewrite Hc. constructor.
Qed.

Lemma query_sources_distinct_witness :
  NoDup (rag_engine.sources (query Sample.twin_engine "What is your CV experience?" 3)) /\
  rag_engine.sources (query Sample.twin_engine "What is your CV experience?" 3)
    = ["resume.pdf"].
Proof.
  split; [|reflexivity].
  apply (query_sources_distinct Sample.twin_engine "What is your CV experience?" 3).
  vm_compute. discriminate.
Defined.

Section PromptText.

Lemma occurs_in_refl (k : string) : occurs_in k k.
Proof.
  exists EmptyString, EmptyString. cbn.
  induction k as [|c k IH]; [reflexivity|].
  change (String c k = String c (k ++ "")). f_equal. exact IH.
Qed.

Lemma occurs_in_app_r (k s t : string) : occurs_in k t -> occurs_in k (s ++ t).
Proof.
  intros (pre & post & ->). exists (s ++ pre), post.
  induction s as [|c s IH]; [reflexivity|].
  change (String c (s ++ pre ++ k ++ post) = String c ((s ++ pre) ++ k ++ post)).
  f_equal. exact IH.
Qed.

Lemma occurs_in_app_l (k s t : string) : occurs_in k s -> occurs_in k (s ++ t).
Proof.
  intros (pre & post & ->). exists pre, (post ++ t).
  induction pre as [|c pre IH].
  - change ((k ++ post) ++ t = k ++ post ++ t).
    clear. induction k as [|c k IH].
    + reflexivity.
    + change (String c ((k ++ post) ++ t) = String c (k ++ post ++ t)).
      f_equal. exact IH.
  - change (String c ((pre ++ k ++ post) ++ t) = String c (pre ++ k ++ post ++ t)).
    f_equal. exact IH.
Qed.

Lemma occurs_in_join (sep b : string) (blocks : list string) :
  In b blocks -> occurs_in b (PyStr.join sep blocks).
Proof.
  induction blocks as [|x rest IH]; intros Hin; [contradiction|].
  destruct rest as [|y rest].
  - destruct Hin as [->|[]]. apply occurs_in_refl.
  - change (PyStr.join sep (x :: y :: rest))
      with (x ++ sep ++ PyStr.join sep (y :: rest)).
    destruct Hin as [->|Hin].
    + apply occurs_in_app_l, occurs_in_refl.
    + apply occurs_in_app_r, occurs_in_app_r, IH, Hin.
Qed.

Lemma template_shows_context (k context_text q : string) :
  occurs_in k context_text -> occurs_in k (prompt_template context_text q).
Proof.
  intros H. unfold prompt_template.
  do 9 apply occurs_in_app_r. apply occurs_in_app_l. exact H.
Qed.

Lemma template_shows_question (context_text q : string) :
  occurs_in q (prompt_template context_text q).
Proof.
  unfold prompt_template.
  do 13 apply occurs_in_app_r. apply occurs_in_app_l, occurs_in_refl.
Qed.

(** The blocks are the passages paired with their labels, in order. *)
Lemma context_blocks_spec (contexts : list string) : forall i srcs blocks j c,
  context_blocks i contexts srcs = PyOk blocks ->
  contexts !! j = Some c ->
  exists s, srcs !! (i + j)%nat = Some s /\ In (prompt_block s c) blocks.
Proof.
  induction contexts as [|c0 rest IH]; intros i srcs blocks j c Hrun Hc;
    [discriminate|].
  cbn [context_blocks] in Hrun.
  destruct (srcs !! i) as [s0|] eqn:Hs0; [|discriminate].
  destruct (context_blocks (S i) rest srcs) as [bs|] eqn:Hrest; [|discriminate].
  injection Hrun as <-.
  destruct j as [|j].
  - injection Hc as <-. exists s0. rewrite Nat.add_0_r.
    split; [exact Hs0 | left; reflexivity].
  - destruct (IH (S i) srcs bs j c Hrest Hc) as (s & Hs & Hin).
    exists s. replace (i + S j)%nat with (S i + j)%nat by lia.
    split; [exact Hs | right; exact Hin].
Qed.

End PromptText.

(** X7: whatever prompt [query] hands to the model contains the question
    and, for every passage that passed the filter, the block with its
    source label and its text cut to 1000 characters. *)
Theorem prompt_shows_accepted_passages (self : RAGEngine) (question : string)
    (top_k : Z) (coll : Collection) (results : QueryResult) (p : string) :
  collection self = Some coll ->
  coll question top_k = PyOk results ->
  prompt_handed (query_run self question top_k) = Some p ->
  occurs_in question p /\
  forall i, In i (passing results) ->
    occurs_in (prompt_block (source_label results i) (context_at results i)) p.
Proof.
  intros Hc Hs.
  rewrite (query_run_steps self question top_k coll results Hc Hs).
  destruct (debug_log 0 _ _); [|discriminate].
  destruct (filter_loop 0 _ _ _ [] []) as [[ctx src]|] eqn:Hloop; [|discriminate].
  destruct (passing_loop results ctx src Hloop) as [-> ->].
  destruct (build_prompt question _ _) as [prompt|] eqn:Hprompt; [|discriminate].
  destruct (llm self) as [model|]; [|discriminate].
  assert (Hp : prompt_handed
                 match model prompt with
                 | PyOk text =>
                     {| site := AtAnswer; prompt_handed := Some prompt;
                        reply := {| answer := PyStr.strip text;
                                    rag_engine.sources :=
                                      match map (context_at results) (passing results) with
                                      | [] => []
                                      | _ => list_set (labels_at results (passing results))
                                      end |} |}
                 | PyRaise e => on_exception (Some prompt) e
                 end = Some prompt).
  { destruct (model prompt); reflexivity. }
  rewrite Hp. intros [= <-]. clear Hp.
  unfold build_prompt in Hprompt.
  destruct (map (context_at results) (passing results)) as [|c0 cs] eqn:Hctx.
  - injection Hprompt as <-. split; [apply template_shows_question|].
    intros i Hi. destruct (passing results); [contradiction | discriminate].
  - destruct (context_blocks 0 (c0 :: cs) _) as [blocks|] eqn:Hblocks;
      [|discriminate].
    injection Hprompt as <-. split; [apply template_shows_question|].
    intros i Hi. apply template_shows_context, occurs_in_join.
    apply list_elem_of_In, list_elem_of_lookup in Hi as [j Hj].
    assert (Hcj : (c0 :: cs) !! j = Some (context_at results i)).
    { rewrite <- Hctx, list_lookup_fmap, Hj. reflexivity. }
    destruct (context_blocks_spec _ _ _ _ _ _ Hblocks Hcj) as (s & Hlab & Hin).
    cbn [Nat.add] in Hlab. unfold labels_at in Hlab.
    rewrite list_lookup_fmap, Hj in Hlab. injection Hlab as <-. exact Hin.
Qed.

Lemma prompt_shows_accepted_passages_witness :
  exists p,
    prompt_handed (query_run Sample.ready_engine "What is your CV experience?" 3)
      = Some p /\
    occurs_in "What is your CV experience?" p /\
    occurs_in (prompt_block "resume.pdf" "Manoj led the cloud migration.") p.
Proof.
  eexists. split; [reflexivity|].
  destruct (prompt_shows_accepted_passages Sample.ready_engine
              "What is your CV experience?" 3 Sample.store Sample.results _
              eq_refl eq_refl eq_refl) as [Hq Hblocks].
  split; [exact Hq|].
  apply (Hblocks 0%nat). left. reflexivity.
Defined.

(* ===================================================================== *)
(** ** Further properties: the engine's handles *)
(* ===================================================================== *)

Section Handles.

Lemma connect_true (env : ConnectEnv) (self : RAGEngine) :
  snd (connect env self) = true ->
  collection (fst (connect env self)) <> None /\
  llm (fst (connect env self)) <> None.
Proof.
  unfold connect.
  destruct (chroma_connect env); [|discriminate].
  destruct (llm_load env); [|discriminate].
  intros _. split; discriminate.
Qed.

Lemma connect_false (env : ConnectEnv) (self : RAGEngine) :
  snd (connect env self) = false -> llm (fst (connect env self)) = llm self.
Proof.
  unfold connect.
  destruct (chroma_connect env); [|reflexivity].
  destruct (llm_load env); [discriminate | reflexivity].
Qed.

Lemma connect_engine_ok (env : ConnectEnv) (self : RAGEngine) :
  engine_ok self -> engine_ok (fst (connect env self)).
Proof.
  unfold engine_ok, connect. intros Hok.
  destruct (chroma_connect env); [|exact Hok].
  destruct (llm_load env); intros _; discriminate.
Qed.

(** The engine both response functions go on with: the given one when a
    model is loaded, the connected one otherwise. *)
Lemma lazy_connect_cases (env : ConnectEnv) (self : RAGEngine) :
  let r := match llm self with
           | Some _ => (self, true)
           | None => connect env self
           end in
  (snd r = true -> llm (fst r) <> None) /\
  (snd r = false -> llm self = None /\ llm (fst r) = None /\
                    snd (connect env self) = false) /\
  (llm self <> None -> r = (self, true)) /\
  (engine_ok self -> engine_ok (fst r)).
Proof.
  destruct (llm self) as [m|] eqn:Hllm; cbn.
  - repeat split; try congruence; try discriminate; auto.
  - split; [apply connect_true|].
    split; [|split; [congruence | apply connect_engine_ok]].
    intros Hf. rewrite (connect_false env self Hf). auto.
Qed.

Lemma query_run_model_loaded (self : RAGEngine) (question : string) (top_k : Z) :
  llm self <> None -> site (query_run self question top_k) <> AtLLMNotLoaded.
Proof.
  intros Hllm. unfold query_run.
  destruct (collection self); [|discriminate].
  destruct (debug_search _ _ _); [|discriminate].
  destruct (match documents a with [] => _ | _ => _ end) as [[ctx src]|];
    [|discriminate].
  destruct (build_prompt _ _ _); [|discriminate].
  destruct (llm self) as [model|]; [|contradiction].
  destruct (model a0); discriminate.
Qed.

Lemma generate_response_engine (env : ConnectEnv) (self : RAGEngine) (msg : string) :
  (llm self <> None -> fst (generate_response env self msg) = self) /\
  (engine_ok self -> engine_ok (fst (generate_response env self msg))).
Proof.
  unfold generate_response.
  destruct (lazy_connect_cases env self) as (_ & _ & Hsame & Hok).
  split.
  - intros Hllm. rewrite (Hsame Hllm). reflexivity.
  - intros H. specialize (Hok H).
    destruct (match llm self with Some _ => _ | None => _ end) as [e [|]];
      exact Hok.
Qed.

Lemma direct_response_engine (env : ConnectEnv) (self : RAGEngine) (msg : string) :
  (llm self <> None -> fst (direct_response env self msg) = self) /\
  (engine_ok self -> engine_ok (fst (direct_response env self msg))).
Proof.
  unfold direct_response.
  destruct (lazy_connect_cases env self) as (_ & _ & Hsame & Hok).
  split.
  - intros Hllm. rewrite (Hsame Hllm).
    destruct (llm self) as [model|]; [|contradiction].
    destruct (model _); reflexivity.
  - intros H. specialize (Hok H).
    destruct (match llm self with Some _ => _ | None => _ end) as [e [|]];
      [|exact Hok].
    destruct (llm e) as [model|]; [|exact Hok].
    destruct (model _); exact Hok.
Qed.

Lemma answer_request_engine (env : RequestEnv) (self : RAGEngine)
    (request : ChatRequest) (b : bool) :
  (llm self <> None -> fst (answer_request env self request b) = self) /\
  (engine_ok self -> engine_ok (fst (answer_request env self request b))).
Proof.
  unfold answer_request.
  destruct b.
  - destruct (generate_response_engine (connect_env env) self (message request))
      as [Hsame Hok].
    destruct (generate_response _ _ _) as [e [err s|q a s]]; cbn in *; auto.
  - destruct (direct_response_engine (connect_env env) self (message request))
      as [Hsame Hok].
    destruct (direct_response _ _ _) as [e [a|ex]]; cbn in *; auto.
Qed.

Lemma chat_endpoint_engine (env : RequestEnv) (srv : Server) (request : ChatRequest) :
  engine (fst (chat_endpoint env srv request)) =
  fst (answer_request env (engine srv) request (should_search_of request)).
Proof.
  destruct (chat_endpoint_inv env srv request)
    as (s0 & _ & [(ex & e1 & Ha & ->)|(a & srcs & e1 & Ha & ->)]);
    unfold should_search_of; rewrite Ha; reflexivity.
Qed.

End Handles.

Lemma generate_response_cases (env : ConnectEnv) (self : RAGEngine)
    (msg : string) :
  match snd (generate_response env self msg) with
  | GenAnswer q a s =>
      let self' := fst (generate_response env self msg) in
      q = msg /\ llm self' <> None /\
      site (query_run self' msg 3) <> AtLLMNotLoaded /\
      a = answer (query self' msg 3) /\
      s = rag_engine.sources (query self' msg 3)
  | GenError e s =>
      e = "Failed to initialize LLM" /\ s = [] /\
      llm self = None /\ snd (connect env self) = false /\
      llm (fst (generate_response env self msg)) = None
  end.
Proof.
  unfold generate_response.
  destruct (lazy_connect_cases env self) as (Htrue & Hfalse & _ & _).
  destruct (match llm self with Some _ => _ | None => _ end) as [e [|]];
    cbn in *.
  - specialize (Htrue eq_refl).
    repeat split; try assumption.
    apply query_run_model_loaded. exact Htrue.
  - destruct (Hfalse eq_refl) as (H1 & H2 & H3). auto.
Qed.

(** X8: what [generate_response] returns.  An answer dict always comes
    from a [query] run with a loaded model, so it is never the
    "LLM not loaded" reply; the error dict is returned only when no
    model was loaded and [connect] failed, and then no model is loaded
    afterwards either. *)
Theorem generate_response_outcomes (env : ConnectEnv) (self : RAGEngine)
    (msg : string) :
  match snd (generate_response env self msg) with
  | GenAnswer q a s =>
      let self' := fst (generate_response env self msg) in
      q = msg /\ llm self' <> None /\
      site (query_run self' msg 3) <> AtLLMNotLoaded /\
      a = answer (query self' msg 3) /\
      s = rag_engine.sources (query self' msg 3)
  | GenError e s =>
      e = "Failed to initialize LLM" /\ s = [] /\
      llm self = None /\ snd (connect env self) = false /\
      llm (fst (generate_response env self msg)) = None
  end.
Proof. exact (generate_response_cases env self msg). Qed.

(** X9: the service keeps the engine in a state where a loaded model
    implies a connected collection: [chat_endpoint] preserves it. *)
Theorem chat_keeps_engine_ok (env : RequestEnv) (srv : Server)
    (request : ChatRequest) :
  engine_ok (engine srv) ->
  engine_ok (engine (fst (chat_endpoint env srv request))).
Proof.
  intros Hok. rewrite chat_endpoint_engine.
  apply answer_request_engine. exact Hok.
Qed.

Lemma chat_keeps_engine_ok_witness :
  engine_ok
    (engine (fst (chat_endpoint Sample.env
                    (Sample.server {| collection := None; llm := None |})
                    Sample.cv_request))).
Proof.
  apply (chat_keeps_engine_ok Sample.env
           (Sample.server {| collection := None; llm := None |})
           Sample.cv_request).
  intros H. simpl in H. congruence.
Defined.

(** X10: from such a state, an answer dict of [generate_response] is
    never the "Not connected to ChromaDB" reply of [query]. *)
Theorem generate_response_connected (env : ConnectEnv) (self : RAGEngine)
    (msg q a : string) (s : list string) :
  engine_ok self ->
  snd (generate_response env self msg) = GenAnswer q a s ->
  site (query_run (fst (generate_response env self msg)) msg 3) <> AtNotConnected.
Proof.
  intros Hok Hgen.
  pose proof (generate_response_cases env self msg) as Hout.
  rewrite Hgen in Hout. destruct Hout as (_ & Hllm & _).
  pose proof (proj2 (generate_response_engine env self msg) Hok Hllm) as Hcoll.
  unfold query_run.
  destruct (collection (fst (generate_response env self msg))) as [c|];
    [|contradiction].
  destruct (debug_search _ _ _); [|discriminate].
  destruct (match documents a0 with [] => _ | _ => _ end) as [[ctx src]|];
    [|discriminate].
  destruct (build_prompt _ _ _); [|discriminate].
  destruct (llm _) as [model|]; [|discriminate].
  destruct (model a1); discriminate.
Qed.

Lemma generate_response_connected_witness :
  site (query_run
          (fst (generate_response (connect_env Sample.env)
                  {| collection := None; llm := None |}
                  "What is your CV experience?"))
          "What is your CV experience?" 3) <> AtNotConnected.
Proof.
  apply (generate_response_connected (connect_env Sample.env)
           {| collection := None; llm := None |}
           "What is your CV experience?" "What is your CV experience?"
           "See the resume." ["resume.pdf"]).
  - intros H. simpl in H. congruence.
  - reflexivity.
Defined.

(** X11: [generate_response] connects only while no model is loaded.
    After the collection handle is dropped with a model still loaded it
    never reconnects: every call answers "Error: Not connected to
    ChromaDB" and leaves the engine as it is. *)
Theorem generate_response_never_reconnects (env : ConnectEnv) (self : RAGEngine)
    (msg : string) :
  llm self <> None ->
  generate_response env (chroma_disconnect self) msg =
    (chroma_disconnect self,
     GenAnswer msg "Error: Not connected to ChromaDB" []).
Proof.
  intros Hllm. unfold generate_response, chroma_disconnect. cbn [llm].
  destruct (llm self) as [model|]; [|contradiction].
  reflexivity.
Qed.

Lemma generate_response_never_reconnects_witness :
  generate_response (connect_env Sample.env)
    (chroma_disconnect Sample.ready_engine) "What is your CV experience?" =
  (chroma_disconnect Sample.ready_engine,
   GenAnswer "What is your CV experience?" "Error: Not connected to ChromaDB" []).
Proof.
  apply (generate_response_never_reconnects (connect_env Sample.env)
           Sample.ready_engine "What is your CV experience?").
  simpl. discriminate.
Defined.

(** X12: once a model is loaded, [chat_endpoint] leaves the engine's
    handles untouched. *)
Theorem chat_engine_unchanged (env : RequestEnv) (srv : Server)
    (request : ChatRequest) :
  llm (engine srv) <> None ->
  engine (fst (chat_endpoint env srv request)) = engine srv.
Proof.
  intros Hllm. rewrite chat_endpoint_engine.
  apply answer_request_engine. exact Hllm.
Qed.

Lemma chat_engine_unchanged_witness :
  engine (fst (chat_endpoint Sample.env (Sample.server Sample.ready_engine)
                 Sample.cv_request)) = Sample.ready_engine.
Proof.
  apply (chat_engine_unchanged Sample.env (Sample.server Sample.ready_engine)
           Sample.cv_request).
  simpl. discriminate.
Defined.

(* ===================================================================== *)
(** ** Further properties: chat_endpoint *)
(* ===================================================================== *)

(** X13: when no model is loaded and [connect] fails, a request routed to
    retrieval is answered 500 with detail ['answer'] (the error dict of
    [generate_response] has no such key), while a request on the direct
    path is answered 200 with the text "Error: LLM not loaded" and no
    sources. *)
Theorem chat_without_model (env : RequestEnv) (srv : Server) (request : ChatRequest) :
  llm (engine srv) = None ->
  snd (connect (connect_env env) (engine srv)) = false ->
  (should_search_of request = true ->
     snd (chat_endpoint env srv request) = HttpError 500 "'answer'") /\
  (should_search_of request = false ->
     exists body,
       snd (chat_endpoint env srv request) = Http200 body /\
       reply_message body = "Error: LLM not loaded" /\
       reply_sources body = []).
Proof.
  intros Hllm Hconn.
  destruct (chat_endpoint_inv env srv request) as (s0 & _ & Hcases).
  fold (should_search_of request) in Hcases.
  split; intros Hsearch; rewrite Hsearch in Hcases;
    unfold answer_request, generate_response, direct_response in Hcases;
    rewrite Hllm in Hcases;
    destruct (connect (connect_env env) (engine srv)) as [e ready];
    cbn in Hconn; subst ready; cbn in Hcases.
  - destruct Hcases as [(ex & e1 & [= <- <-] & ->)|(a & srcs & e1 & [=] & _)].
    reflexivity.
  - destruct Hcases as [(ex & e1 & [=] & _)|(a & srcs & e1 & [= <- <- <-] & ->)].
    eexists. split; [reflexivity|]. split; reflexivity.
Qed.

Lemma chat_without_model_witness :
  snd (chat_endpoint Sample.cold_env (Sample.server Sample.cold_engine)
         Sample.cv_request) = HttpError 500 "'answer'" /\
  exists body,
    snd (chat_endpoint Sample.cold_env (Sample.server Sample.cold_engine)
           Sample.weather_request) = Http200 body /\
    reply_message body = "Error: LLM not loaded" /\
    reply_sources body = [].
Proof.
  split.
  - apply (proj1 (chat_without_model Sample.cold_env
                    (Sample.server Sample.cold_engine) Sample.cv_request
                    eq_refl eq_refl)).
    reflexivity.
  - apply (proj2 (chat_without_model Sample.cold_env
                    (Sample.server Sample.cold_engine) Sample.weather_request
                    eq_refl eq_refl)).
    reflexivity.
Defined.

(** X14: a completed turn leaves the target session with its id and
    creation time as they were, [updated_at] set to the time of the
    update, and the title re-derived from the message exactly when the
    session had no messages before (so a title given at creation is
    replaced by the first turn) and kept otherwise. *)
Theorem chat_session_after_turn (env : RequestEnv) (srv : Server)
    (request : ChatRequest) (body : ChatReply) :
  snd (chat_endpoint env srv request) = Http200 body ->
  exists s0 s3,
    base_session env srv request s0 /\
    chat_sessions (fst (chat_endpoint env srv request)) !! reply_session_id body
      = Some s3 /\
    cs_session_id s3 = cs_session_id s0 /\
    created_at s3 = created_at s0 /\
    updated_at s3 = now_update env /\
    messages s3 = history body /\
    title s3 = match messages s0 with
               | [] => generate_session_title (message request)
               | _ => title s0
               end.
Proof.
  destruct (chat_endpoint_inv env srv request)
    as (s0 & Hb & [(ex & e1 & _ & ->)|(a & srcs & e1 & _ & ->)]);
    cbn [fst snd]; intros [= <-].
  exists s0, (after_assistant env request s0 a srcs).
  cbn [chat_sessions reply_session_id history].
  rewrite lookup_insert_eq.
  repeat split; try assumption.
  unfold after_assistant, finish_session, append_message. cbn [title messages].
  rewrite !length_app. cbn [length].
  destruct (messages s0) as [|m rest]; [reflexivity|].
  cbn [length]. replace (S (length rest) + 1 + 1)%nat with (S (S (S (length rest))))
    by lia.
  reflexivity.
Qed.

Lemma chat_session_after_turn_witness :
  exists s3,
    chat_sessions (fst (chat_endpoint Sample.env (Sample.server Sample.ready_engine)
                          Sample.weather_request)) !! "s1" = Some s3 /\
    title s3 = "What's the weather like?" /\
    created_at s3 = "t0" /\ updated_at s3 = "t3".
Proof.
  destruct (chat_session_after_turn Sample.env (Sample.server Sample.ready_engine)
              Sample.weather_request Sample.weather_reply eq_refl)
    as (s0 & s3 & Hbase & Hlook & _ & Hcreated & Hupdated & _ & Htitle).
  vm_compute in Hbase. destruct Hbase as [_ Hs0]. injection Hs0 as <-.
  exists s3. repeat split; assumption.
Defined.



Lemma chat_other_sessions (env : RequestEnv) (srv : Server)
    (request : ChatRequest) :
  is_Some (chat_sessions (fst (chat_endpoint env srv request))
             !! target_session_id env srv request) /\
  forall other, other <> target_session_id env srv request ->
    chat_sessions (fst (chat_endpoint env srv request)) !! other =
    chat_sessions srv !! other.
Proof.
  destruct (chat_endpoint_inv env srv request)
    as (s0 & Hb & [(ex & e1 & _ & ->)|(a & srcs & e1 & _ & ->)]);
    cbn [fst chat_sessions]; split.
  - rewrite after_user_lookup. eauto.
  - intros other Hne. apply after_user_other. exact Hne.
  - rewrite lookup_insert_eq. eauto.
  - intros other Hne. rewrite lookup_insert_ne by congruence.
    apply after_user_other. exact Hne.
Qed.

(** X16: whatever the outcome, [chat_endpoint] changes no session other
    than its target, and afterwards the target is in the store; so no
    stored session ever disappears through a chat request. *)
Theorem chat_touches_only_target (env : RequestEnv) (srv : Server)
    (request : ChatRequest) :
  is_Some (chat_sessions (fst (chat_endpoint env srv request))
             !! target_session_id env srv request) /\
  forall other, other <> target_session_id env srv request ->
    chat_sessions (fst (chat_endpoint env srv request)) !! other =
    chat_sessions srv !! other.
Proof. exact (chat_other_sessions env srv request). Qed.

Lemma chat_touches_only_target_witness :
  chat_sessions (fst (chat_endpoint Sample.env (Sample.server Sample.ready_engine)
                        Sample.cv_request)) !! "s1" = Some Sample.session.
Proof.
  apply (proj2 (chat_touches_only_target Sample.env
                  (Sample.server Sample.ready_engine) Sample.cv_request) "s1").
  discriminate.
Defined.

(** X17: which session a request works on.  A request naming a stored,
    non-empty id works on that session; any other request (no id, the
    empty id, an unknown id) works on a new session under the generated
    uuid, and an unknown requested id is not added to the store. *)
Theorem chat_session_choice (env : RequestEnv) (srv : Server)
    (request : ChatRequest) :
  (forall sid, session_id request = Some sid -> sid <> "" ->
     is_Some (chat_sessions srv !! sid) ->
     target_session_id env srv request = sid) /\
  (session_id request = None \/ session_id request = Some "" \/
   (exists sid, session_id request = Some sid /\ chat_sessions srv !! sid = None) ->
   target_session_id env srv request = uuid4 env /\
   forall sid, session_id request = Some sid ->
     chat_sessions srv !! sid = None -> sid <> uuid4 env ->
     chat_sessions (fst (chat_endpoint env srv request)) !! sid = None).
Proof.
  unfold target_session_id, needs_new_session. split.
  - intros sid -> Hne Hin.
    destruct (String.eqb_spec sid ""); [contradiction|].
    rewrite bool_decide_eq_true_2 by exact Hin. reflexivity.
  - intros Hnew.
    assert (Htarget :
      (if match session_id request with
          | Some sid => String.eqb sid "" ||
                        negb (bool_decide (is_Some (chat_sessions srv !! sid)))
          | None => true
          end
       then uuid4 env else default "" (session_id request)) = uuid4 env).
    { destruct Hnew as [->|[->|(sid & -> & Hnone)]]; try reflexivity.
      rewrite bool_decide_eq_false_2; [rewrite orb_true_r; reflexivity|].
      rewrite Hnone. intros [x Hx]. discriminate. }
    split; [exact Htarget|].
    intros sid Hsid Hnone Hne.
    rewrite (proj2 (chat_other_sessions env srv request)); [exact Hnone|].
    unfold target_session_id, needs_new_session. rewrite Htarget. exact Hne.
Qed.

Lemma chat_session_choice_witness :
  target_session_id Sample.env (Sample.server Sample.ready_engine)
    Sample.weather_request = "s1" /\
  target_session_id Sample.env (Sample.server Sample.ready_engine)
    {| message := "hello"; session_id := Some "gone"; search_documents := true |}
    = "u1" /\
  chat_sessions
    (fst (chat_endpoint Sample.env (Sample.server Sample.ready_engine)
            {| message := "hello"; session_id := Some "gone";
               search_documents := true |})) !! "gone" = None.
Proof.
  split.
  - apply (proj1 (chat_session_choice Sample.env (Sample.server Sample.ready_engine)
                    Sample.weather_request) "s1" eq_refl).
    + discriminate.
    + exists Sample.session. reflexivity.
  - destruct (proj2 (chat_session_choice Sample.env
                       (Sample.server Sample.ready_engine)
                       {| message := "hello"; session_id := Some "gone";
                          search_documents := true |})) as [Htarget Hgone].
    + right. right. exists "gone". split; reflexivity.
    + split; [exact Htarget|].
      apply (Hgone "gone" eq_refl eq_refl). discriminate.
Defined.

(* ===================================================================== *)
(** ** Further properties: creating and listing sessions *)
(* ===================================================================== *)

(** X18: [create_new_session] answers 200 with the generated id; the
    session is then readable under that id with no messages and both
    timestamps equal; its title is the requested one, or "New Chat" when
    none or the empty string was given; no other id is affected. *)
Theorem create_new_session_spec (env : RequestEnv) (srv : Server)
    (request : NewSessionRequest) :
  exists s,
    snd (create_new_session env srv request) =
      Http200 {| new_session_id := uuid4 env; new_title := title s |} /\
    get_session (fst (create_new_session env srv request)) (uuid4 env) = Http200 s /\
    cs_session_id s = uuid4 env /\ messages s = [] /\
    created_at s = now_start env /\ updated_at s = now_start env /\
    (forall t, requested_title request = Some t -> t <> "" -> title s = t) /\
    (requested_title request = None \/ requested_title request = Some "" ->
     title s = "New Chat") /\
    (forall other, other <> uuid4 env ->
       chat_sessions (fst (create_new_session env srv request)) !! other =
       chat_sessions srv !! other).
Proof.
  exists {| cs_session_id := uuid4 env;
            title := title_or_default (requested_title request);
            created_at := now_start env; messages := [];
            updated_at := now_start env |}.
  unfold create_new_session, get_session. cbn [fst snd chat_sessions].
  rewrite lookup_insert_eq. cbn [title].
  split; [reflexivity|]. split; [reflexivity|].
  do 4 (split; [reflexivity|]).
  unfold title_or_default. repeat split.
  - intros t -> Hne. destruct (String.eqb_spec t ""); [contradiction|reflexivity].
  - intros [->| ->]; reflexivity.
  - intros other Hne. apply lookup_insert_ne. congruence.
Qed.

Lemma create_new_session_spec_witness :
  exists s,
    get_session
      (fst (create_new_session Sample.env (Sample.server Sample.ready_engine)
              {| requested_title := Some "" |})) "u1" = Http200 s /\
    title s = "New Chat" /\ messages s = [].
Proof.
  destruct (create_new_session_spec Sample.env (Sample.server Sample.ready_engine)
              {| requested_title := Some "" |})
    as (s & _ & Hget & _ & Hmsgs & _ & _ & _ & Hdefault & _).
  exists s. split; [exact Hget|]. split; [|exact Hmsgs].
  apply Hdefault. right. reflexivity.
Defined.

(** X19: creating a session under an unused id and deleting it again
    gives back the store as it was. *)
Theorem create_then_delete (env env' : RequestEnv) (srv : Server)
    (request : NewSessionRequest) :
  chat_sessions srv !! uuid4 env = None ->
  snd (delete_session env' (fst (create_new_session env srv request)) (uuid4 env))
    = Http200 "Session deleted successfully" /\
  chat_sessions
    (fst (delete_session env' (fst (create_new_session env srv request)) (uuid4 env)))
    = chat_sessions srv.
Proof.
  intros Hnew. unfold delete_session, create_new_session.
  cbn [fst snd chat_sessions]. rewrite lookup_insert_eq.
  cbn [fst snd chat_sessions].
  split; [reflexivity|]. apply delete_insert_id. exact Hnew.
Qed.

Lemma create_then_delete_witness :
  chat_sessions
    (fst (delete_session Sample.env
            (fst (create_new_session Sample.env (Sample.server Sample.ready_engine)
                    {| requested_title := None |})) "u1"))
    = {[ "s1" := Sample.session ]}.
Proof.
  apply (proj2 (create_then_delete Sample.env Sample.env
                  (Sample.server Sample.ready_engine)
                  {| requested_title := None |} eq_refl)).
Defined.

Section Listing.

Lemma ascii_compare_trans (x y z : ascii) :
  Ascii.compare x y <> Gt -> Ascii.compare y z <> Gt -> Ascii.compare x z <> Gt.
Proof.
  unfold Ascii.compare. rewrite !N.compare_gt_iff. lia.
Qed.

Lemma string_leb_trans (a : string) : forall b c,
  String.leb a b = true -> String.leb b c = true -> String.leb a c = true.
Proof.
  unfold String.leb.
  induction a as [|x a IH]; intros [|y b] [|z c]; cbn [String.compare];
    try discriminate; try reflexivity.
  destruct (Ascii.compare x y) eqn:Hxy; try discriminate;
    destruct (Ascii.compare y z) eqn:Hyz; try discriminate.
  - apply Ascii.compare_eq_iff in Hxy as ->. rewrite Hyz. apply IH.
  - apply Ascii.compare_eq_iff in Hxy as ->. rewrite Hyz. reflexivity.
  - apply Ascii.compare_eq_iff in Hyz as <-. rewrite Hxy. reflexivity.
  - intros _ _.
    assert (Hxz : Ascii.compare x z = Lt).
    { unfold Ascii.compare in *. rewrite N.compare_lt_iff in *. lia. }
    rewrite Hxz. reflexivity.
Qed.

Lemma not_older_trans (a b c : ChatSession) :
  not_older a b -> not_older b c -> not_older a c.
Proof. unfold not_older. intros Hab Hbc. exact (string_leb_trans _ _ _ Hbc Hab). Qed.

Lemma insert_by_updated_at_perm (s : ChatSession) (l : list ChatSession) :
  insert_by_updated_at s l ≡ₚ s :: l.
Proof.
  induction l as [|y rest IH]; cbn [insert_by_updated_at]; [reflexivity|].
  destruct (String.ltb (updated_at s) (updated_at y)); [|reflexivity].
  rewrite IH. apply Permutation_swap.
Qed.

Lemma sorted_by_updated_at_desc_perm (l : list ChatSession) :
  sorted_by_updated_at_desc l ≡ₚ l.
Proof.
  induction l as [|s rest IH]; [reflexivity|].
  cbn [sorted_by_updated_at_desc foldr].
  rewrite insert_by_updated_at_perm. constructor. exact IH.
Qed.

Lemma insert_by_updated_at_sorted (s : ChatSession) (l : list ChatSession) :
  StronglySorted not_older l -> StronglySorted not_older (insert_by_updated_at s l).
Proof.
  induction 1 as [|y rest Hrest IH Hy]; cbn [insert_by_updated_at].
  - repeat constructor.
  - destruct (String.ltb (updated_at s) (updated_at y)) eqn:Hlt.
    + constructor; [exact IH|].
      apply Forall_forall. intros z Hz.
      rewrite insert_by_updated_at_perm in Hz.
      apply elem_of_cons in Hz as [->|Hz].
      * unfold not_older, String.leb. unfold String.ltb in Hlt.
        destruct (String.compare (updated_at s) (updated_at y));
          [reflexivity | reflexivity | discriminate].
      * rewrite Forall_forall in Hy. apply Hy, Hz.
    + assert (Hsy : not_older s y).
      { unfold not_older, String.leb. unfold String.ltb in Hlt.
        rewrite String.compare_antisym.
        destruct (String.compare (updated_at s) (updated_at y));
          [reflexivity | discriminate | reflexivity]. }
      constructor; [constructor; assumption|].
      constructor; [exact Hsy|].
      apply Forall_forall. intros z Hz. rewrite Forall_forall in Hy.
      apply (not_older_trans s y z Hsy (Hy z Hz)).
Qed.

Lemma sorted_by_updated_at_desc_sorted (l : list ChatSession) :
  StronglySorted not_older (sorted_by_updated_at_desc l).
Proof.
  induction l as [|s rest IH]; [constructor|].
  apply insert_by_updated_at_sorted. exact IH.
Qed.

End Listing.

(** X20: [get_all_sessions] answers 200 with every stored session once
    (as many entries as the store has sessions), ordered so that no
    session comes after one with a smaller [updated_at]. *)
Theorem get_all_sessions_sorted (srv : Server) :
  exists l,
    get_all_sessions srv = Http200 l /\
    (forall s, s ∈ l <-> exists sid, chat_sessions srv !! sid = Some s) /\
    length l = size (chat_sessions srv) /\
    StronglySorted not_older l.
Proof.
  eexists. split; [reflexivity|]. split; [|split].
  - intros s. rewrite sorted_by_updated_at_desc_perm, list_elem_of_fmap. split.
    + intros ([sid s'] & -> & Hin). exists sid.
      apply elem_of_map_to_list. exact Hin.
    + intros [sid Hs]. exists (sid, s). split; [reflexivity|].
      apply elem_of_map_to_list. exact Hs.
  - rewrite sorted_by_updated_at_desc_perm, length_fmap.
    apply length_map_to_list.
  - apply sorted_by_updated_at_desc_sorted.
Qed.

Lemma get_all_sessions_sorted_witness :
  exists l,
    get_all_sessions (Sample.server Sample.ready_engine) = Http200 l /\
    Sample.session ∈ l /\ length l = 1%nat.
Proof.
  destruct (get_all_sessions_sorted (Sample.server Sample.ready_engine))
    as (l & Hget & Hmem & Hlen & _).
  exists l. split; [exact Hget|]. split; [|exact Hlen].
  apply Hmem. exists "s1". reflexivity.
Defined.

(* ===================================================================== *)
(** ** Further properties: router and title *)
(* ===================================================================== *)

Section RouterFacts.

Lemma lower_app (a b : string) :
  PyStr.lower (a ++ b) = PyStr.lower a ++ PyStr.lower b.
Proof.
  induction a as [|c a IH]; [reflexivity|].
  change (String (PyStr.lower_char c) (PyStr.lower (a ++ b)) =
          String (PyStr.lower_char c) (PyStr.lower a ++ PyStr.lower b)).
  f_equal. exact IH.
Qed.

Lemma string_length_app (a b : string) :
  String.length (a ++ b) = (String.length a + String.length b)%nat.
Proof.
  induction a as [|c a IH]; [reflexivity|].
  change (S (String.length (a ++ b)) = S (String.length a + String.length b)).
  f_equal. exact IH.
Qed.

End RouterFacts.

(** X21: the router looks for the keywords anywhere in the message,
    inside words and in any letter case: a message that contains a text
    whose lowercase form is a configured keyword is routed to document
    search, whatever surrounds it. *)
Theorem router_matches_anywhere (before word after keyword : string) :
  In keyword doc_specific_keywords ->
  PyStr.lower word = keyword ->
  needs_document_search (before ++ word ++ after) = true.
Proof.
  intros Hin Hword. unfold needs_document_search.
  apply any_keyword_in_spec. exists keyword. split; [exact Hin|].
  exists (PyStr.lower before), (PyStr.lower after).
  rewrite !lower_app, Hword. reflexivity.
Qed.

Lemma router_matches_anywhere_witness :
  needs_document_search "Is he on PAROLE?" = true.
Proof.
  apply (router_matches_anywhere "Is he on PA" "ROLE" "?" "role").
  - simpl. tauto.
  - reflexivity.
Defined.

(** X22: the derived title has the length of the message when that is at
    most 30 and exactly 33 otherwise; so it never exceeds 33 characters,
    and for messages of 31 or 32 characters it is longer than the
    message. *)
Theorem generate_session_title_length (m : string) :
  String.length (generate_session_title m) =
    if (String.length m <=? 30)%nat then String.length m else 33%nat.
Proof.
  unfold generate_session_title.
  destruct (Nat.ltb_spec 30 (String.length m)) as [Hlong|Hshort].
  - destruct (Nat.leb_spec (String.length m) 30); [lia|].
    destruct (take_split 30 m ltac:(lia)) as (rest & _ & Hlen).
    rewrite string_length_app, Hlen. reflexivity.
  - destruct (Nat.leb_spec (String.length m) 30); [reflexivity | lia].
Qed.

(* ===================================================================== *)
(** ** Further properties: a failed turn followed by a retry *)
(* ===================================================================== *)

(** X23: when a request on a stored session fails with a 500 and the
    same request is sent again and succeeds, the session holds the user
    message twice: the one left behind by the failed call, then the user
    and assistant messages of the retry. *)
Theorem chat_retry_duplicates_user_message (env env' : RequestEnv) (srv : Server)
    (request : ChatRequest) (sid detail : string) (status : nat)
    (body : ChatReply) :
  session_id request = Some sid -> sid <> "" ->
  is_Some (chat_sessions srv !! sid) ->
  snd (chat_endpoint env srv request) = HttpError status detail ->
  snd (chat_endpoint env' (fst (chat_endpoint env srv request)) request)
    = Http200 body ->
  exists assistant,
    role assistant = "assistant" /\
    reply_session_id body = sid /\
    history body =
      (messages_of srv sid ++
       [user_message env request; user_message env' request; assistant])%list.
Proof.
  intros Hsid Hne [s Hs] Hfail Hretry.
  assert (Hfresh : forall sessions : gmap string ChatSession,
            is_Some (sessions !! sid) ->
            needs_new_session sessions (session_id request) = false).
  { intros sessions Hin. unfold needs_new_session. rewrite Hsid.
    destruct (String.eqb_spec sid ""); [contradiction|].
    rewrite bool_decide_eq_true_2 by exact Hin. reflexivity. }
  assert (Htarget : forall e (sv : Server),
            is_Some (chat_sessions sv !! sid) ->
            target_session_id e sv request = sid).
  { intros e sv Hin. unfold target_session_id.
    rewrite (Hfresh _ Hin), Hsid. reflexivity. }
  destruct (chat_endpoint_inv env srv request)
    as (s0 & Hb & [(ex & e1 & _ & Heq)|(a & srcs & e1 & _ & Heq)]);
    rewrite Heq in Hfail, Hretry; cbn [fst snd] in Hfail, Hretry;
    [clear Hfail | discriminate].
  unfold base_session in Hb.
  rewrite (Hfresh _ (ex_intro _ s Hs)), (Htarget env srv (ex_intro _ s Hs)) in Hb.
  destruct Hb as [_ Hs0]. rewrite Hs in Hs0. injection Hs0 as <-.
  set (srv1 := {| chat_sessions := after_user env srv request s;
                  persisted := persisted srv; engine := e1 |}) in *.
  assert (Hs1 : chat_sessions srv1 !! sid =
                Some (append_message (user_message env request) s)).
  { cbn [srv1 chat_sessions].
    rewrite <- (Htarget env srv (ex_intro _ s Hs)) at 1.
    apply after_user_lookup. }
  destruct (chat_endpoint_inv env' srv1 request)
    as (s1 & Hb1 & [(ex' & e2 & _ & Heq')|(a & srcs & e2 & _ & Heq')]);
    rewrite Heq' in Hretry; cbn [snd] in Hretry; [discriminate|].
  unfold base_session in Hb1.
  rewrite (Hfresh _ (ex_intro _ _ Hs1)), (Htarget env' srv1 (ex_intro _ _ Hs1)) in Hb1.
  destruct Hb1 as [_ Hs1']. rewrite Hs1 in Hs1'. injection Hs1' as <-.
  injection Hretry as <-.
  exists (assistant_message env' request a srcs).
  cbn [reply_session_id history].
  split; [reflexivity|]. split; [apply Htarget; eauto|].
  unfold messages_of. rewrite Hs.
  unfold after_assistant, finish_session, append_message. cbn [messages].
  rewrite <- !app_assoc. reflexivity.
Qed.

Lemma chat_retry_duplicates_user_message_witness :
  exists assistant,
    role assistant = "assistant" /\
    history Sample.retry_reply =
      [user_message Sample.cold_env Sample.cv_s1_request;
       user_message Sample.env Sample.cv_s1_request; assistant].
Proof.
  assert (Hne : "s1" <> "") by discriminate.
  assert (Hin : is_Some (chat_sessions (Sample.server Sample.cold_engine) !! "s1")).
  { exists Sample.session. reflexivity. }
  destruct (chat_retry_duplicates_user_message Sample.cold_env Sample.env
              (Sample.server Sample.cold_engine) Sample.cv_s1_request
              "s1" "'answer'" 500 Sample.retry_reply
              eq_refl Hne Hin eq_refl eq_refl)
    as (assistant & Hrole & _ & Hhistory).
  exists assistant. split; [exact Hrole | exact Hhistory].
Defined.

(* ===================================================================== *)
(** ** Further properties: the grouped session list of the sidebar *)
(* ===================================================================== *)

Section Grouping.

Import frontend_app.

Variable datetime : Type.
Variable fromisoformat : string -> option datetime.
Variable date_ordinal : datetime -> Z.
Variable strftime_month_year : datetime -> string.
Variable today : Z.

Let step := group_step datetime fromisoformat date_ordinal strftime_month_year today.
Let filed := filed_under datetime fromisoformat date_ordinal strftime_month_year today.
Let filed_in :=
  filed_sessions datetime fromisoformat date_ordinal strftime_month_year today.

(** A non-empty list, or no entry at all. *)
Let entry (l : list Session) : option (list Session) :=
  match l with
  | [] => None
  | _ => Some l
  end.

Lemma dict_get_append (key k : string) (x : Session) grouped :
  dict_get k (dict_append key x grouped) =
    if String.eqb key k
    then Some (default [] (dict_get key grouped) ++ [x])%list
    else dict_get k grouped.
Proof.
  induction grouped as [|[k0 l0] rest IH]; cbn [dict_append dict_get].
  - destruct (String.eqb key k); reflexivity.
  - destruct (String.eqb_spec k0 key) as [->|Hne]; cbn [dict_get].
    + destruct (String.eqb key k); reflexivity.
    + destruct (String.eqb_spec k0 k) as [->|Hne'].
      * destruct (String.eqb_spec key k); [congruence | reflexivity].
      * exact IH.
Qed.

Lemma dict_append_keys (key : string) (x : Session) grouped :
  NoDup (map fst grouped) -> NoDup (map fst (dict_append key x grouped)).
Proof.
  intros Hnd.
  assert (Hkeys : forall k, k ∈ map fst (dict_append key x grouped) ->
                            k = key \/ k ∈ map fst grouped).
  { induction grouped as [|[k0 l0] rest IH]; cbn [dict_append]; intros k Hk.
    - cbn in Hk. apply list_elem_of_singleton in Hk. auto.
    - destruct (String.eqb k0 key); cbn [map fst] in *; [auto|].
      apply elem_of_cons in Hk as [->|Hk]; [right; left|].
      apply NoDup_cons in Hnd as [_ Hnd].
      destruct (IH Hnd k Hk); [auto | right; right; assumption]. }
  clear Hkeys.
  induction grouped as [|[k0 l0] rest IH]; cbn [dict_append].
  - cbn. apply NoDup_singleton.
  - cbn [map fst] in Hnd. apply NoDup_cons in Hnd as [Hk0 Hnd].
    destruct (String.eqb_spec k0 key) as [->|Hne]; cbn [map fst].
    + apply NoDup_cons. auto.
    + apply NoDup_cons. split; [|auto].
      intros Hin. apply Hk0. clear IH Hnd Hk0.
      induction rest as [|[k1 l1] rest IH]; cbn [dict_append map fst] in *.
      * apply list_elem_of_singleton in Hin. congruence.
      * destruct (String.eqb k1 key); cbn [map fst] in *; [exact Hin|].
        apply elem_of_cons in Hin as [->|Hin]; [left | right; auto].
Qed.

Lemma dict_append_concat (key : string) (x : Session) grouped :
  concat (map snd (dict_append key x grouped)) ≡ₚ x :: concat (map snd grouped).
Proof.
  induction grouped as [|[k0 l0] rest IH]; cbn [dict_append].
  - reflexivity.
  - destruct (String.eqb k0 key); cbn [map snd concat].
    + rewrite <- app_assoc. cbn [app].
      rewrite <- Permutation_middle. reflexivity.
    + rewrite IH. rewrite <- Permutation_middle. reflexivity.
Qed.

Lemma filed_in_snoc (key : string) (done : list Session) (s : Session) :
  filed_in key (done ++ [s]) =
    (filed_in key done ++
     match filed s with
     | Some g => if String.eqb g key then [s] else []
     | None => []
     end)%list.
Proof.
  subst filed_in filed. unfold filed_sessions.
  rewrite List.filter_app. cbn [List.filter].
  destruct (filed_under _ _ _ _ _ s) as [g|]; [|reflexivity].
  destruct (String.eqb g key); reflexivity.
Qed.

Lemma step_filed (grouped : list (string * list Session)) (s : Session) :
  step grouped s =
    match filed s with
    | Some g => dict_append g s grouped
    | None => grouped
    end.
Proof.
  subst step filed. unfold group_step, filed_under.
  destruct (created_at s) as [text|]; [|reflexivity].
  destruct (fromisoformat (replace_Z text)) as [t|]; [|reflexivity].
  destruct (String.eqb _ ""); reflexivity.
Qed.

(** The loop invariant: after the sessions [done], each key holds the
    sessions of [done] filed under it, and only keys with sessions exist. *)
Lemma group_loop (rest : list Session) : forall done grouped,
  NoDup (map fst grouped) ->
  (forall k, dict_get k grouped = entry (filed_in k done)) ->
  NoDup (map fst (fold_left step rest grouped)) /\
  (forall k, dict_get k (fold_left step rest grouped)
             = entry (filed_in k (done ++ rest))).
Proof.
  induction rest as [|s rest IH]; intros done grouped Hnd Hget.
  - rewrite app_nil_r. auto.
  - cbn [fold_left].
    replace (done ++ s :: rest)%list with ((done ++ [s]) ++ rest)%list
      by (rewrite <- app_assoc; reflexivity).
    apply IH.
    + rewrite step_filed. destruct (filed s); [apply dict_append_keys|]; exact Hnd.
    + intros k. rewrite step_filed, filed_in_snoc.
      destruct (filed s) as [g|]; [|rewrite app_nil_r; apply Hget].
      rewrite dict_get_append, !Hget.
      destruct (String.eqb_spec g k) as [->|Hne].
      * destruct (filed_in k done); reflexivity.
      * rewrite app_nil_r. reflexivity.
Qed.

Lemma group_loop_concat (rest : list Session) : forall grouped,
  (forall s, s ∈ rest -> filed s <> None) ->
  concat (map snd (fold_left step rest grouped))
    ≡ₚ (concat (map snd grouped) ++ rest)%list.
Proof.
  induction rest as [|s rest IH]; intros grouped Hall; cbn [fold_left].
  - rewrite app_nil_r. reflexivity.
  - rewrite IH by (intros x Hx; apply Hall; right; exact Hx).
    rewrite step_filed.
    destruct (filed s) eqn:Hs; [|exfalso; apply (Hall s); [left|exact Hs]].
    rewrite dict_append_concat. rewrite <- Permutation_middle. reflexivity.
Qed.

Lemma filed_some (s : Session) :
  (forall t, strftime_month_year t <> "") -> filed s <> None.
Proof.
  intros Hlabel. subst filed. unfold filed_under.
  destruct (created_at s) as [text|]; [|discriminate].
  destruct (fromisoformat (replace_Z text)) as [t|]; [|discriminate].
  assert (Hname : group_name_of datetime date_ordinal strftime_month_year today t
                  <> "").
  { unfold group_name_of.
    repeat match goal with |- context [if ?b then _ else _] => destruct b end;
      try discriminate. apply Hlabel. }
  destruct (String.eqb_spec (group_name_of datetime date_ordinal
                               strftime_month_year today t) "");
    [contradiction | discriminate].
Qed.

End Grouping.

(** X24: the grouped dict of the sidebar.  Its keys are distinct; under
    each key it holds exactly the sessions filed under that key, in the
    order of the input list; and a key with no session is absent. *)
Theorem group_sessions_by_key (datetime : Type)
    (fromisoformat : string -> option datetime) (date_ordinal : datetime -> Z)
    (strftime_month_year : datetime -> string) (today : Z)
    (sessions : list frontend_app.Session) :
  let grouped :=
    frontend_app.group_sessions_for_chatgpt_layout datetime fromisoformat
      date_ordinal strftime_month_year today sessions in
  NoDup (map fst grouped) /\
  forall key,
    frontend_app.dict_get key grouped =
      match frontend_app.filed_sessions datetime fromisoformat date_ordinal
              strftime_month_year today key sessions with
      | [] => None
      | filed => Some filed
      end.
Proof.
  cbn zeta. unfold frontend_app.group_sessions_for_chatgpt_layout.
  destruct (group_loop datetime fromisoformat date_ordinal strftime_month_year
              today sessions [] []) as [Hkeys Hget].
  - constructor.
  - reflexivity.
  - split; [exact Hkeys|]. intros key. rewrite Hget. cbn [app].
    destruct (frontend_app.filed_sessions _ _ _ _ _ key sessions); reflexivity.
Qed.

(** X25: provided the month label is never the empty string, no session
    is lost or shown twice: the groups taken together are the input list
    up to order. *)
Theorem group_sessions_keeps_all (datetime : Type)
    (fromisoformat : string -> option datetime) (date_ordinal : datetime -> Z)
    (strftime_month_year : datetime -> string) (today : Z)
    (sessions : list frontend_app.Session) :
  (forall t, strftime_month_year t <> "") ->
  concat (map snd
            (frontend_app.group_sessions_for_chatgpt_layout datetime fromisoformat
               date_ordinal strftime_month_year today sessions))
    ≡ₚ sessions.
Proof.
  intros Hlabel. unfold frontend_app.group_sessions_for_chatgpt_layout.
  rewrite group_loop_concat; [reflexivity|].
  intros s _. apply filed_some. exact Hlabel.
Qed.

Lemma group_sessions_keeps_all_witness :
  concat (map snd
            (frontend_app.group_sessions_for_chatgpt_layout Z Sample.parse_day
               (fun day => day) Sample.month_label 10 Sample.sidebar_sessions))
    ≡ₚ Sample.sidebar_sessions.
Proof.
  apply (group_sessions_keeps_all Z Sample.parse_day (fun day => day)
           Sample.month_label 10 Sample.sidebar_sessions).
  intros t. discriminate.
Defined.


(* ===================================================================== *)
(** ** Further properties: the file and the store *)
(* ===================================================================== *)

(** X26: while the file can be written, every handler that completes a
    change (creating a session, deleting a stored one, a chat turn
    answered 200) leaves the file holding exactly the sessions in memory,
    whatever the file held before. *)
Theorem handlers_keep_file_in_sync (env : RequestEnv) (srv : Server) :
  file_writable env = true ->
  (forall request, in_sync (fst (create_new_session env srv request))) /\
  (forall sid, is_Some (chat_sessions srv !! sid) ->
     in_sync (fst (delete_session env srv sid))) /\
  (forall request body,
     snd (chat_endpoint env srv request) = Http200 body ->
     in_sync (fst (chat_endpoint env srv request))).
Proof.
  intros Hw. unfold in_sync. repeat split.
  - intros request. unfold create_new_session, save_sessions.
    cbn [fst persisted chat_sessions]. rewrite Hw. reflexivity.
  - intros sid [s Hs]. unfold delete_session, save_sessions. rewrite Hs.
    cbn [fst persisted chat_sessions]. rewrite Hw. reflexivity.
  - intros request body Hok.
    destruct (chat_endpoint_inv env srv request)
      as (s0 & _ & [(ex & e1 & _ & Heq)|(a & srcs & e1 & _ & Heq)]);
      rewrite Heq in *; [discriminate|].
    cbn [fst persisted chat_sessions]. unfold save_sessions.
    rewrite Hw. reflexivity.
Qed.

Lemma handlers_keep_file_in_sync_witness :
  in_sync (fst (chat_endpoint Sample.env (Sample.server Sample.ready_engine)
                  Sample.cv_request)).
Proof.
  apply (proj2 (proj2 (handlers_keep_file_in_sync Sample.env
                         (Sample.server Sample.ready_engine) eq_refl))
           Sample.cv_request Sample.cv_reply).
  reflexivity.
Defined.

(** X27: a chat turn that fails while the file was in step with memory
    breaks that: the file still holds the store from before the request,
    and memory no longer equals it, because the target session has gained
    the user message (the generated uuid is assumed unused). *)
Theorem failed_turn_breaks_sync (env : RequestEnv) (srv : Server)
    (request : ChatRequest) (status : nat) (detail : string) :
  in_sync srv ->
  chat_sessions srv !! uuid4 env = None ->
  snd (chat_endpoint env srv request) = HttpError status detail ->
  persisted (fst (chat_endpoint env srv request)) = Some (chat_sessions srv) /\
  ~ in_sync (fst (chat_endpoint env srv request)).
Proof.
  unfold in_sync. intros Hsync Hnew Hfail.
  pose proof (base_session_messages env srv request) as Hold.
  destruct (chat_endpoint_inv env srv request)
    as (s0 & Hb & [(ex & e1 & _ & Heq)|(a & srcs & e1 & _ & Heq)]);
    rewrite Heq in *; [|discriminate].
  cbn [fst persisted chat_sessions]. split; [exact Hsync|].
  rewrite Hsync. intros [= Hsame].
  specialize (Hold s0 Hnew Hb). unfold messages_of in Hold.
  rewrite Hsame, after_user_lookup in Hold. cbn [append_message messages] in Hold.
  apply (f_equal (@length _)) in Hold. rewrite length_app in Hold.
  cbn in Hold. lia.
Qed.

Lemma failed_turn_breaks_sync_witness :
  persisted (fst (chat_endpoint Sample.env
                    (Sample.synced_server Sample.failing_engine)
                    Sample.weather_request))
    = Some {[ "s1" := Sample.session ]} /\
  ~ in_sync (fst (chat_endpoint Sample.env
                    (Sample.synced_server Sample.failing_engine)
                    Sample.weather_request)).
Proof.
  apply (failed_turn_breaks_sync Sample.env
           (Sample.synced_server Sample.failing_engine) Sample.weather_request
           500 "Requested tokens exceed context window"
           eq_refl eq_refl eq_refl).
Defined.

(* ===================================================================== *)
(** ** Further properties: debug_search *)
(* ===================================================================== *)

(** X28: [debug_search] hands back the collection's answer unchanged, and
    it does so exactly when the search succeeded and, for every document
    that has a metadata entry, the entry is not [None] and a distance is
    present; otherwise it raises, also where the search itself
    succeeded. *)
Theorem debug_search_returns (c : Collection) (query : string) (n_results : Z)
    (results : QueryResult) :
  debug_search (Some c) query n_results = PyOk results <->
  c query n_results = PyOk results /\
  forall i doc m,
    documents results !! i = Some doc -> metadatas results !! i = Some m ->
    m <> None /\ is_Some (distances results !! i).
Proof.
  unfold debug_search. split.
  - destruct (c query n_results) as [r|e]; [|discriminate].
    destruct (debug_log 0 _ _) as [[]|e] eqn:Hlog; [|discriminate].
    intros [= ->]. split; [reflexivity|].
    intros i doc m Hdoc Hm.
    destruct m as [md|].
    + split; [discriminate|].
      destruct (distances results !! i) as [d|] eqn:Hd; [eauto|].
      destruct (debug_log_raises (distances results)
                  (zip (documents results) (metadatas results)) 0 i
                  (doc, Some md)) as [e He].
      * apply lookup_zip_with_Some. eauto.
      * right. exact Hd.
      * congruence.
    + destruct (debug_log_raises (distances results)
                  (zip (documents results) (metadatas results)) 0 i
                  (doc, None)) as [e He].
      * apply lookup_zip_with_Some. eauto.
      * left. reflexivity.
      * congruence.
  - intros [-> Hall].
    rewrite debug_log_ok; [reflexivity|].
    intros j [doc m] Hp.
    apply lookup_zip_with_Some in Hp as (doc' & m' & [= <- <-] & Hdoc & Hm).
    apply (Hall j doc m Hdoc Hm).
Qed.

Lemma debug_search_returns_witness :
  debug_search (Some Sample.store) "What is your CV experience?" 3
    = PyOk Sample.results /\
  debug_search (Some Sample.bare_store) "What is your CV experience?" 3
    <> PyOk Sample.bare_results.
Proof.
  split.
  - apply (proj2 (debug_search_returns Sample.store
                    "What is your CV experience?" 3 Sample.results)).
    split; [reflexivity|].
    intros i doc m Hdoc Hm.
    destruct i as [|[|i]]; simpl in Hm; try discriminate;
      injection Hm as <-; (split; [discriminate | eexists; reflexivity]).
  - intros Hok.
    apply (proj1 (debug_search_returns Sample.bare_store
                    "What is your CV experience?" 3 Sample.bare_results)) in Hok.
    destruct Hok as [_ Hall].
    destruct (Hall 1%nat "A recipe for soup." None eq_refl eq_refl) as [Hnone _].
    apply Hnone. reflexivity.
Defined.

(* ===================================================================== *)
(** ** Further properties: build_prompt on its own *)
(* ===================================================================== *)

Lemma context_blocks_short (contexts : list string) : forall i srcs,
  (i <= length srcs < i + length contexts)%nat ->
  context_blocks i contexts srcs = PyRaise IndexError.
Proof.
  induction contexts as [|c rest IH]; intros i srcs Hlen; cbn [context_blocks].
  - simpl in Hlen. lia.
  - destruct (srcs !! i) as [s|] eqn:Hs; [|reflexivity].
    apply lookup_lt_Some in Hs.
    rewrite IH; [reflexivity|]. simpl in Hlen. lia.
Qed.

(** X29: [build_prompt] by itself.  Without contexts it gives the
    general-knowledge prompt whatever the sources are; with contexts and
    at least as many sources it returns a prompt (surplus sources are
    ignored); with fewer sources than contexts it raises IndexError. *)
Theorem build_prompt_bounds (q : string) (contexts srcs : list string) :
  (contexts = [] ->
     build_prompt q contexts srcs = PyOk (prompt_template general_knowledge_text q)) /\
  ((length contexts <= length srcs)%nat ->
     exists prompt, build_prompt q contexts srcs = PyOk prompt) /\
  ((length srcs < length contexts)%nat ->
     build_prompt q contexts srcs = PyRaise IndexError).
Proof.
  unfold build_prompt. repeat split.
  - intros ->. reflexivity.
  - intros Hlen. destruct contexts as [|c rest]; [eauto|].
    destruct (context_blocks_ok (c :: rest) 0 srcs ltac:(lia)) as [blocks ->].
    eauto.
  - intros Hlen. destruct contexts as [|c rest]; [simpl in Hlen; lia|].
    rewrite context_blocks_short; [reflexivity | lia].
Qed.

Lemma build_prompt_bounds_witness :
  build_prompt "q" [] ["a.txt"] = PyOk (prompt_template general_knowledge_text "q") /\
  (exists prompt, build_prompt "q" ["text"] ["a.txt"; "b.txt"] = PyOk prompt) /\
  build_prompt "q" ["one"; "two"] ["a.txt"] = PyRaise IndexError.
Proof.
  split; [|split].
  - apply (proj1 (build_prompt_bounds "q" [] ["a.txt"])). reflexivity.
  - apply (proj1 (proj2 (build_prompt_bounds "q" ["text"] ["a.txt"; "b.txt"]))).
    simpl. lia.
  - apply (proj2 (proj2 (build_prompt_bounds "q" ["one"; "two"] ["a.txt"]))).
    simpl. lia.
Defined.
